(** * Sheeter MCP server: the tool catalog, the API gateway client and the
      call-tool dispatcher of [src/index.ts], embedded in Rocq.

    The server is a TypeScript module.  Its values are untyped at run time
    (the [as T] casts of the source check nothing), so the embedding works on
    JavaScript values as [JSON.parse] produces them, with the conversions of
    ECMAScript ([ToString], [ToNumber], [ToBoolean]) written out, and with
    exceptions as an error monad.  What belongs to the platform and not to the
    repository (IEEE doubles, [URLSearchParams], [JSON.stringify], the text
    of the engine's [TypeError]s, the network) is taken as a parameter. *)

From Stdlib Require Import ZArith List String Ascii Bool Lia DecimalString.
Import ListNotations.

Set Implicit Arguments.
Local Open Scope Z_scope.
Local Open Scope list_scope.

(** ** JavaScript strings

    A JavaScript string is a sequence of UTF-16 code units; [length] counts
    code units and [Object.entries] of a string enumerates them. *)

Definition code_unit := N.
Definition jstring := list code_unit.

(** An ASCII literal of the source, as code units. *)
Definition lit (s : string) : jstring :=
  map N_of_ascii (list_ascii_of_string s).

(** The two characters that a Rocq string literal cannot carry here. *)
Definition dquote : jstring := [34%N].
Definition nl : jstring := [10%N].

(** The source's U+2022 (bullet) and U+00D7 (multiplication sign). *)
Definition bullet : jstring := [8226%N].
Definition times_sign : jstring := [215%N].

Fixpoint jstring_eqb (s t : jstring) : bool :=
  match s, t with
  | [], [] => true
  | a :: s', b :: t' => N.eqb a b && jstring_eqb s' t'
  | _, _ => false
  end.

(** The canonical decimal form of an integer: what [Number::toString] gives
    for an integer-valued double below 10^21, and what array indices are as
    property keys. *)
Definition decimal (z : Z) : jstring :=
  lit (NilZero.string_of_int (Z.to_int z)).

(** [Array.prototype.join] on strings already converted. *)
Fixpoint join_strings (sep : jstring) (l : list jstring) : jstring :=
  match l with
  | [] => []
  | [s] => s
  | s :: rest => s ++ sep ++ join_strings sep rest
  end.

(** [text.includes(s)], as a proposition and as a test. *)
Definition contains (s text : jstring) : Prop :=
  exists pre post, text = pre ++ s ++ post.

Fixpoint starts_with (s text : jstring) : bool :=
  match s, text with
  | [], _ => true
  | a :: s', b :: text' => N.eqb a b && starts_with s' text'
  | _ :: _, [] => false
  end.

Fixpoint includes (text s : jstring) : bool :=
  starts_with s text ||
  match text with
  | [] => false
  | _ :: text' => includes text' s
  end.

(** ** Exceptions

    Every value thrown inside the handler is an [Error] instance: the two
    [throw new Error(...)] of the source, the engine's [TypeError]s, and the
    rejections of [fetch], [response.text()] and [response.json()], which the
    Fetch standard makes [TypeError], [DOMException] or [SyntaxError].  The
    catch clause reads nothing of an [Error] but its [message]. *)

Record error := mkError { message : jstring }.

Inductive completion (A : Type) : Type :=
| Normal (a : A)
| Throw (e : error).
Arguments Normal {A} a.
Arguments Throw {A} e.

Definition bind {A B} (c : completion A) (k : A -> completion B) : completion B :=
  match c with
  | Normal a => k a
  | Throw e => Throw e
  end.

Declare Scope js_scope.
Delimit Scope js_scope with js.
Notation "x <- c ;; k" := (bind c (fun x => k))
  (at level 61, c at next level, right associativity) : js_scope.
Local Open Scope js_scope.

Section Traversals.
Context {A B : Type}.
Variable f : A -> completion B.

(** [Array.prototype.map] with a callback that may throw: the elements are
    visited in order and the first exception ends the traversal. *)
Fixpoint mapM (l : list A) : completion (list B) :=
  match l with
  | [] => Normal []
  | x :: rest =>
      y <- f x ;;
      ys <- mapM rest ;;
      Normal (y :: ys)
  end.
End Traversals.

Section IndexedTraversal.
Context {A B : Type}.
Variable f : A -> nat -> completion B.

(** The same with the callback's second argument, the index. *)
Fixpoint mapMi_from (idx : nat) (l : list A) : completion (list B) :=
  match l with
  | [] => Normal []
  | x :: rest =>
      y <- f x idx ;;
      ys <- mapMi_from (S idx) rest ;;
      Normal (y :: ys)
  end.

Definition mapMi (l : list A) : completion (list B) := mapMi_from 0 l.
End IndexedTraversal.

(** ** Numbers

    A JavaScript number is an IEEE-754 double.  The embedding does not fix a
    representation: it takes the type with the operations the source uses and
    the facts that hold of doubles on the safe integers, where arithmetic is
    exact and [toString] is the decimal form. *)

Definition safe (z : Z) : Prop := - (2 ^ 53 - 1) <= z <= 2 ^ 53 - 1.

Class JSNumber (number : Type) : Type := {
  (** the double of an integer literal or of a length *)
  num_of_Z : Z -> number;
  NaN : number;
  (** [x - y] on numbers *)
  num_sub : number -> number -> number;
  (** [x < y] on numbers; false when either is [NaN] *)
  num_lt : number -> number -> bool;
  (** [ToBoolean] on numbers: false at zero and [NaN] *)
  num_ToBoolean : number -> bool;
  (** [Number::toString], radix 10 *)
  num_toString : number -> jstring;
  (** [StringToNumber] *)
  StringToNumber : jstring -> number;
  num_sub_exact : forall a b, safe a -> safe b -> safe (a - b) ->
    num_sub (num_of_Z a) (num_of_Z b) = num_of_Z (a - b);
  num_lt_exact : forall a b, safe a -> safe b ->
    num_lt (num_of_Z a) (num_of_Z b) = (a <? b);
  num_lt_NaN : forall a, num_lt a NaN = false;
  num_ToBoolean_exact : forall a, safe a ->
    num_ToBoolean (num_of_Z a) = negb (a =? 0);
  num_toString_exact : forall a, safe a ->
    num_toString (num_of_Z a) = decimal a
}.

(** ** Values

    The values that [JSON.parse] and object literals over them produce.  An
    object is the list of its own enumerable properties in the order the
    engine enumerates them, keys distinct. *)

Section Values.
Variable number : Type.

#[local] Unset Elimination Schemes.
Inductive value : Type :=
| VUndefined
| VNull
| VBool (b : bool)
| VNum (n : number)
| VStr (s : jstring)
| VArr (elements : list value)
| VObj (properties : list (jstring * value)).
#[local] Set Elimination Schemes.

Definition object := list (jstring * value).

(** The own property [k] of an object, [undefined] when there is none. *)
Fixpoint own (o : object) (k : jstring) : value :=
  match o with
  | [] => VUndefined
  | (k', v) :: rest => if jstring_eqb k' k then v else own rest k
  end.

Fixpoint has_own (o : object) (k : jstring) : bool :=
  match o with
  | [] => false
  | (k', _) :: rest => jstring_eqb k' k || has_own rest k
  end.

Definition nullish (v : value) : bool :=
  match v with
  | VUndefined | VNull => true
  | _ => false
  end.
End Values.

Arguments VUndefined {number}.
Arguments VNull {number}.
Arguments VBool {number} b.
Arguments VNum {number} n.
Arguments VStr {number} s.
Arguments VArr {number} elements.
Arguments VObj {number} properties.
Arguments object number : clear implicits.

(** ** The platform

    The engine's [TypeError]s, by the operation that raises them; their text
    differs between engines. *)

Inductive type_error :=
| DestructureNullish (is_null : bool) (property : jstring)
| ReadOfNullish (is_null : bool) (property : jstring)
| NotAFunction (callee : jstring)
| NoPrimitiveValue
| EntriesOfNullish.

Class Platform (number : Type) : Type := {
  (** [String(new URLSearchParams(record))], on the record's entries *)
  URLSearchParams_toString : list (jstring * jstring) -> jstring;
  JSON_stringify : value number -> jstring;
  TypeError_message : type_error -> jstring
}.

Section Conversions.
Context {number : Type} {NUM : JSNumber number} {PLAT : Platform number}.

Local Abbreviation value := (value number).

Definition TypeError {A} (t : type_error) : completion A :=
  Throw (mkError (TypeError_message t)).

Definition is_null (v : value) : bool :=
  match v with
  | VNull => true
  | _ => false
  end.

(** [ToString].  An array converts through [join(",")], where [undefined]
    and [null] elements give the empty string.  A plain object converts
    through [Object.prototype.toString] unless it has an own [toString]
    property, which (coming from JSON) is not callable: then no primitive
    value is found and the conversion throws. *)
Fixpoint ToString (v : value) : completion jstring :=
  match v with
  | VUndefined => Normal (lit "undefined")
  | VNull => Normal (lit "null")
  | VBool true => Normal (lit "true")
  | VBool false => Normal (lit "false")
  | VNum n => Normal (num_toString n)
  | VStr s => Normal s
  | VArr l =>
      strs <- mapM (fun x => match x with
                             | VUndefined | VNull => Normal []
                             | _ => ToString x
                             end) l ;;
      Normal (join_strings (lit ",") strs)
  | VObj o =>
      if has_own o (lit "toString") then TypeError NoPrimitiveValue
      else Normal (lit "[object Object]")
  end.

Definition join_element (x : value) : completion jstring :=
  match x with
  | VUndefined | VNull => Normal []
  | _ => ToString x
  end.

(** [Array.prototype.join(sep)] on an array's elements. *)
Definition Array_join (sep : jstring) (l : list value) : completion jstring :=
  strs <- mapM join_element l ;;
  Normal (join_strings sep strs).

(** [ToNumber]; arrays and objects go through their primitive value, which
    is their string. *)
Definition ToNumber (v : value) : completion number :=
  match v with
  | VUndefined => Normal NaN
  | VNull => Normal (num_of_Z 0)
  | VBool true => Normal (num_of_Z 1)
  | VBool false => Normal (num_of_Z 0)
  | VNum n => Normal n
  | VStr s => Normal (StringToNumber s)
  | VArr _ | VObj _ => s <- ToString v ;; Normal (StringToNumber s)
  end.

Definition ToBoolean (v : value) : bool :=
  match v with
  | VUndefined | VNull => false
  | VBool b => b
  | VNum n => num_ToBoolean n
  | VStr s => negb (jstring_eqb s [])
  | VArr _ | VObj _ => true
  end.

(** [x || y] *)
Definition js_or (x y : value) : value := if ToBoolean x then x else y.

(** [x > y] with a number on the right. *)
Definition js_gt (x : value) (y : number) : completion bool :=
  n <- ToNumber x ;;
  Normal (num_lt y n).

(** [x - y] *)
Definition js_sub (x y : value) : completion number :=
  a <- ToNumber x ;;
  b <- ToNumber y ;;
  Normal (num_sub a b).

(** [v.k], for a property name [k] that no built-in prototype defines (every
    name the source reads except [length], [values] and the methods below):
    an own property of an object, [undefined] on any other value that is
    not [undefined] or [null]. *)
Definition Get (v : value) (k : jstring) : completion value :=
  match v with
  | VUndefined | VNull => TypeError (ReadOfNullish (is_null v) k)
  | VObj o => Normal (own o k)
  | _ => Normal VUndefined
  end.

(** [const { k } = v] *)
Definition destructure (v : value) (k : jstring) : completion value :=
  match v with
  | VUndefined | VNull => TypeError (DestructureNullish (is_null v) k)
  | VObj o => Normal (own o k)
  | _ => Normal VUndefined
  end.

(** [const { k = d } = v]: the default replaces [undefined] only. *)
Definition default_to (d v : value) : value :=
  match v with
  | VUndefined => d
  | _ => v
  end.

Definition length_value (n : nat) : value := VNum (num_of_Z (Z.of_nat n)).

(** [v.length] *)
Definition Get_length (v : value) : completion value :=
  match v with
  | VUndefined | VNull => TypeError (ReadOfNullish (is_null v) (lit "length"))
  | VStr s => Normal (length_value (List.length s))
  | VArr l => Normal (length_value (List.length l))
  | VObj o => Normal (own o (lit "length"))
  | _ => Normal VUndefined
  end.

(** [v?.length] *)
Definition Get_length_opt (v : value) : completion value :=
  if nullish v then Normal VUndefined else Get_length v.

(** [x.toString()], [x] being the variable [callee] *)
Definition call_toString (callee : jstring) (v : value) : completion jstring :=
  match v with
  | VUndefined | VNull => TypeError (ReadOfNullish (is_null v) (lit "toString"))
  | VObj o =>
      if has_own o (lit "toString")
      then TypeError (NotAFunction (callee ++ lit ".toString"))
      else Normal (lit "[object Object]")
  | _ => ToString v
  end.

(** [Object.entries(v)]: the own enumerable string-keyed properties.  A
    string has its code units under their indices, an array its elements. *)
Definition indexed {A} (f : nat -> A -> value) (l : list A) : object number :=
  map (fun p => (decimal (Z.of_nat (fst p)), f (fst p) (snd p)))
      (combine (seq 0 (List.length l)) l).

Definition Object_entries (v : value) : completion (object number) :=
  match v with
  | VUndefined | VNull => TypeError EntriesOfNullish
  | VBool _ | VNum _ => Normal []
  | VStr s => Normal (indexed (fun _ c => VStr [c]) s)
  | VArr l => Normal (indexed (fun _ x => x) l)
  | VObj o => Normal o
  end.

(** [new URLSearchParams(record)]: each value is converted to a string. *)
Definition URLSearchParams (record : object number)
  : completion (list (jstring * jstring)) :=
  mapM (fun kv => s <- ToString (snd kv) ;; Normal (fst kv, s)) record.

End Conversions.

(** ** Configuration, requests and responses *)

Record Config := { apiKey : jstring; baseUrl : jstring }.

(** The [RequestInit] dictionary, with [headers] in record form. *)
Record RequestInit := {
  method : option jstring;
  body : option jstring;
  headers : list (jstring * jstring)
}.

(** The default [options = {}]. *)
Definition no_options : RequestInit :=
  {| method := None; body := None; headers := [] |}.

(** Writing a property of an object literal: a key already present keeps its
    place and takes the new value, a new key goes to the end. *)
Fixpoint set_property (o : list (jstring * jstring)) (k v : jstring)
  : list (jstring * jstring) :=
  match o with
  | [] => [(k, v)]
  | (k', v') :: rest =>
      if jstring_eqb k' k then (k', v) :: rest
      else (k', v') :: set_property rest k v
  end.

(** [{ ...base, ...extra }] *)
Definition spread (base extra : list (jstring * jstring))
  : list (jstring * jstring) :=
  fold_left (fun acc kv => set_property acc (fst kv) (snd kv)) extra base.

(** The header a request carries under a name: the value of that property
    of the [headers] record. *)
Fixpoint header (hs : list (jstring * jstring)) (k : jstring) : option jstring :=
  match hs with
  | [] => None
  | (k', v) :: rest => if jstring_eqb k' k then Some v else header rest k
  end.

Module Response.
Section Response.
Variable number : Type.

(** What the handler reads of a [Response]: [status], [statusText], and the
    outcomes of [text()] and [json()]. *)
Record t := {
  status : Z;
  statusText : jstring;
  text : completion jstring;
  json : completion (value number)
}.

(** [response.ok]: the status is in the range 200 to 299 (Fetch standard). *)
Definition ok (r : t) : bool := (200 <=? status r) && (status r <=? 299).
End Response.
End Response.

(** The result of a tool call. *)
Record TextContent := { type : jstring; text : jstring }.
Record CallToolResult := { content : list TextContent; isError : option bool }.

Definition text_result (t : jstring) : CallToolResult :=
  {| content := [{| type := lit "text"; text := t |}]; isError := None |}.

Definition error_result (t : jstring) : CallToolResult :=
  {| content := [{| type := lit "text"; text := t |}]; isError := Some true |}.

(** ** The API gateway client and the dispatcher *)

Section Server.
Context {number : Type} {NUM : JSNumber number} {PLAT : Platform number}.

Local Abbreviation value := (value number).

(** [createServer]'s configuration, and the network: what [fetch] settles
    to for a URL and a [RequestInit].  A request that never settles is not
    modelled: the handler awaits it and does not exit. *)
Variable config : Config.
Variable fetch : jstring -> RequestInit -> completion (Response.t number).

(** The second argument of [fetch]: [{ ...options, headers: { 'Authorization':
    ..., 'Content-Type': ..., ...options.headers } }]. *)
Definition request_init (options : RequestInit) : RequestInit :=
  {| method := method options;
     body := body options;
     headers :=
       spread [(lit "Authorization", lit "Bearer " ++ apiKey config);
               (lit "Content-Type", lit "application/json")]
              (headers options) |}.

Definition callSheeterAPI (endpoint : jstring) (options : RequestInit)
  : completion value :=
  let url := baseUrl config ++ endpoint in
  response <- fetch url (request_init options) ;;
  if negb (Response.ok response) then
    error <- Response.text response ;;
    Throw (mkError (lit "API call failed: "
                      ++ num_toString (num_of_Z (Response.status response))
                      ++ lit " " ++ Response.statusText response
                      ++ lit " - " ++ error))
  else Response.json response.

(** A substitution [${e}] of a template literal. *)
Definition interp (e : completion value) : completion jstring :=
  v <- e ;; ToString v.

(** [idx + 1] on an array index, shown. *)
Definition index_plus_one (idx : nat) : jstring :=
  num_toString (num_of_Z (Z.of_nat idx + 1)).

(** [arr?.map(f).join("\n")]: the whole chain is [undefined] when [arr] is
    [undefined] or [null]; a value that is not an array has no callable
    [map]. *)
Definition map_join (arr : value) (f : value -> nat -> completion jstring)
    (callee : jstring) : completion value :=
  match arr with
  | VUndefined | VNull => Normal VUndefined
  | VArr l => lines <- mapMi f l ;; Normal (VStr (join_strings nl lines))
  | _ => TypeError (NotAFunction callee)
  end.

Definition create_spreadsheet (args : value) : completion CallToolResult :=
  title <- destructure args (lit "title") ;;
  result <- callSheeterAPI (lit "/api/sheets/create")
    {| method := Some (lit "POST");
       body := Some (JSON_stringify (VObj [(lit "title", title)]));
       headers := [] |} ;;
  title_s <- ToString title ;;
  spreadsheetId <- interp (Get result (lit "spreadsheetId")) ;;
  spreadsheetUrl <- interp (Get result (lit "spreadsheetUrl")) ;;
  Normal (text_result
    (lit "Successfully created spreadsheet: " ++ dquote ++ title_s ++ dquote
     ++ nl ++ lit "Spreadsheet ID: " ++ spreadsheetId
     ++ nl ++ lit "URL: " ++ spreadsheetUrl)).

(** [`${key}: ${value}`] *)
Definition format_entry (kv : jstring * value) : completion jstring :=
  value_s <- ToString (snd kv) ;;
  Normal (fst kv ++ lit ": " ++ value_s).

(** [(row, idx) => `Row ${idx + 1}: ${Object.entries(row).map(...).join(", ")}`] *)
Definition format_row (row : value) (idx : nat) : completion jstring :=
  entries <- Object_entries row ;;
  cells <- mapM format_entry entries ;;
  Normal (lit "Row " ++ index_plus_one idx ++ lit ": "
          ++ join_strings (lit ", ") cells).

(** [const dataText = result.data?.length > 0 ? ... : "No data found"].
    [slice] and [map] are callable on arrays only: a string has [slice] but
    its slice has no [map], and other values have no [slice]. *)
Definition dataText (result : value) : completion jstring :=
  data <- Get result (lit "data") ;;
  len <- Get_length_opt data ;;
  nonempty <- js_gt len (num_of_Z 0) ;;
  if nonempty then
    match data with
    | VArr rows =>
        lines <- mapMi format_row (firstn 10 rows) ;;
        len <- Get_length data ;;
        more <- js_gt len (num_of_Z 10) ;;
        suffix <-
          (if more then
             len <- Get_length data ;;
             rest <- js_sub len (VNum (num_of_Z 10)) ;;
             Normal (nl ++ lit "... and " ++ num_toString rest
                     ++ lit " more rows")
           else Normal []) ;;
        Normal (join_strings nl lines ++ suffix)
    | VStr _ => TypeError (NotAFunction (lit "result.data.slice(...).map"))
    | _ => TypeError (NotAFunction (lit "result.data.slice"))
    end
  else Normal (lit "No data found").

(** [result.headers?.join(", ")] *)
Definition headers_joined (headers : value) : completion value :=
  match headers with
  | VUndefined | VNull => Normal VUndefined
  | VArr l => s <- Array_join (lit ", ") l ;; Normal (VStr s)
  | _ => TypeError (NotAFunction (lit "result.headers.join"))
  end.

Definition read_sheet (args : value) : completion CallToolResult :=
  sheetId <- destructure args (lit "sheetId") ;;
  range <- destructure args (lit "range") ;;
  majorDimension <- destructure args (lit "majorDimension") ;;
  valueRenderOption <- destructure args (lit "valueRenderOption") ;;
  queryParams <- URLSearchParams
    [(lit "range", default_to (VStr (lit "A:Z")) range);
     (lit "majorDimension", default_to (VStr (lit "ROWS")) majorDimension);
     (lit "valueRenderOption",
      default_to (VStr (lit "FORMATTED_VALUE")) valueRenderOption)] ;;
  sheetId_s <- ToString sheetId ;;
  result <- callSheeterAPI
    (lit "/api/sheets/" ++ sheetId_s ++ lit "?"
     ++ URLSearchParams_toString queryParams) no_options ;;
  dataText <- dataText result ;;
  range_s <- interp (Get result (lit "range")) ;;
  rowCount <- interp (Get result (lit "rowCount")) ;;
  headers_s <- interp (headers <- Get result (lit "headers") ;;
                       joined <- headers_joined headers ;;
                       Normal (js_or joined (VStr (lit "No headers")))) ;;
  Normal (text_result
    (lit "Sheet Data from " ++ range_s ++ lit " (" ++ rowCount
     ++ lit " rows):" ++ nl ++ nl ++ lit "Headers: " ++ headers_s
     ++ nl ++ nl ++ lit "Data:" ++ nl ++ dataText)).

Definition write_sheet (args : value) : completion CallToolResult :=
  sheetId <- destructure args (lit "sheetId") ;;
  range <- destructure args (lit "range") ;;
  values <- destructure args (lit "values") ;;
  valueInputOption <- destructure args (lit "valueInputOption") ;;
  sheetId_s <- ToString sheetId ;;
  result <- callSheeterAPI (lit "/api/sheets/" ++ sheetId_s ++ lit "/values")
    {| method := Some (lit "PUT");
       body := Some (JSON_stringify (VObj
         [(lit "range", range); (lit "values", values);
          (lit "valueInputOption",
           default_to (VStr (lit "USER_ENTERED")) valueInputOption)]));
       headers := [] |} ;;
  updatedCells <- interp (Get result (lit "updatedCells")) ;;
  updatedRange <- interp (Get result (lit "updatedRange")) ;;
  updatedRows <- interp (Get result (lit "updatedRows")) ;;
  updatedColumns <- interp (Get result (lit "updatedColumns")) ;;
  Normal (text_result
    (lit "Successfully updated " ++ updatedCells ++ lit " cells in range "
     ++ updatedRange ++ nl ++ lit "Updated " ++ updatedRows
     ++ lit " rows and " ++ updatedColumns ++ lit " columns")).

Definition append_to_sheet (args : value) : completion CallToolResult :=
  sheetId <- destructure args (lit "sheetId") ;;
  values <- destructure args (lit "values") ;;
  valueInputOption <- destructure args (lit "valueInputOption") ;;
  sheetId_s <- ToString sheetId ;;
  result <- callSheeterAPI (lit "/api/sheets/" ++ sheetId_s ++ lit "/append")
    {| method := Some (lit "POST");
       body := Some (JSON_stringify (VObj
         [(lit "values", values);
          (lit "valueInputOption",
           default_to (VStr (lit "USER_ENTERED")) valueInputOption)]));
       headers := [] |} ;;
  updatedCells <-
    interp (updates <- Get result (lit "updates") ;;
            Get updates (lit "updatedCells")) ;;
  updatedRange <-
    interp (updates <- Get result (lit "updates") ;;
            Get updates (lit "updatedRange")) ;;
  Normal (text_result
    (lit "Successfully appended " ++ updatedCells ++ lit " cells to the sheet"
     ++ nl ++ lit "Data added to range: " ++ updatedRange)).

Definition clear_range (args : value) : completion CallToolResult :=
  sheetId <- destructure args (lit "sheetId") ;;
  range <- destructure args (lit "range") ;;
  queryParams <- URLSearchParams [(lit "range", range)] ;;
  sheetId_s <- ToString sheetId ;;
  result <- callSheeterAPI
    (lit "/api/sheets/" ++ sheetId_s ++ lit "/values?"
     ++ URLSearchParams_toString queryParams)
    {| method := Some (lit "DELETE"); body := None; headers := [] |} ;;
  clearedRange <- interp (Get result (lit "clearedRange")) ;;
  Normal (text_result (lit "Successfully cleared range " ++ clearedRange)).

(** [vr.values?.length].  On an array, [values] is the method
    [Array.prototype.values], a function whose [length] is 0. *)
Definition values_length (vr : value) : completion value :=
  match vr with
  | VArr _ => Normal (length_value 0)
  | _ => values <- Get vr (lit "values") ;; Get_length_opt values
  end.

(** [(vr, idx) => `Range ${idx + 1} (${vr.range}): ${vr.values?.length || 0} rows`] *)
Definition format_range (vr : value) (idx : nat) : completion jstring :=
  range_s <- interp (Get vr (lit "range")) ;;
  len <- values_length vr ;;
  rows <- ToString (js_or len (VNum (num_of_Z 0))) ;;
  Normal (lit "Range " ++ index_plus_one idx ++ lit " (" ++ range_s
          ++ lit "): " ++ rows ++ lit " rows").

(** [const rangeResults = result.valueRanges?.map(...).join("\n") || "No ranges returned"] *)
Definition rangeResults (result : value) : completion jstring :=
  valueRanges <- Get result (lit "valueRanges") ;;
  joined <- map_join valueRanges format_range (lit "result.valueRanges.map") ;;
  ToString (js_or joined (VStr (lit "No ranges returned"))).

Definition batch_get_ranges (args : value) : completion CallToolResult :=
  sheetId <- destructure args (lit "sheetId") ;;
  ranges <- destructure args (lit "ranges") ;;
  majorDimension <- destructure args (lit "majorDimension") ;;
  valueRenderOption <- destructure args (lit "valueRenderOption") ;;
  sheetId_s <- ToString sheetId ;;
  result <- callSheeterAPI
    (lit "/api/sheets/" ++ sheetId_s ++ lit "/batch-get")
    {| method := Some (lit "POST");
       body := Some (JSON_stringify (VObj
         [(lit "ranges", ranges);
          (lit "majorDimension",
           default_to (VStr (lit "ROWS")) majorDimension);
          (lit "valueRenderOption",
           default_to (VStr (lit "FORMATTED_VALUE")) valueRenderOption)]));
       headers := [] |} ;;
  rangeResults <- rangeResults result ;;
  count <- interp (Get_length ranges) ;;
  Normal (text_result
    (lit "Batch get completed for " ++ count ++ lit " ranges:" ++ nl ++ nl
     ++ rangeResults)).

Definition batch_update_ranges (args : value) : completion CallToolResult :=
  sheetId <- destructure args (lit "sheetId") ;;
  data <- destructure args (lit "data") ;;
  valueInputOption <- destructure args (lit "valueInputOption") ;;
  sheetId_s <- ToString sheetId ;;
  result <- callSheeterAPI
    (lit "/api/sheets/" ++ sheetId_s ++ lit "/batch-update")
    {| method := Some (lit "PUT");
       body := Some (JSON_stringify (VObj
         [(lit "data", data);
          (lit "valueInputOption",
           default_to (VStr (lit "USER_ENTERED")) valueInputOption)]));
       headers := [] |} ;;
  totalUpdatedCells <- interp (Get result (lit "totalUpdatedCells")) ;;
  count <- interp (Get_length data) ;;
  Normal (text_result
    (lit "Batch update completed:" ++ nl ++ lit "Total updated cells: "
     ++ totalUpdatedCells ++ nl ++ lit "Total updated ranges: " ++ count)).

(** The callback of [result.sheets?.map]: one line per sheet. *)
Definition format_sheet (sheet : value) (idx : nat) : completion jstring :=
  title <- interp (Get sheet (lit "title")) ;;
  sheetId <- interp (Get sheet (lit "sheetId")) ;;
  rowCount <-
    interp (gridProperties <- Get sheet (lit "gridProperties") ;;
            Get gridProperties (lit "rowCount")) ;;
  columnCount <-
    interp (gridProperties <- Get sheet (lit "gridProperties") ;;
            Get gridProperties (lit "columnCount")) ;;
  Normal (bullet ++ lit " " ++ title ++ lit " (ID: " ++ sheetId ++ lit ", "
          ++ rowCount ++ lit " rows " ++ times_sign ++ lit " " ++ columnCount
          ++ lit " cols)").

(** [const sheetsInfo = result.sheets?.map(...).join("\n") || "No sheets found"] *)
Definition sheetsInfo (result : value) : completion jstring :=
  sheets <- Get result (lit "sheets") ;;
  joined <- map_join sheets format_sheet (lit "result.sheets.map") ;;
  ToString (js_or joined (VStr (lit "No sheets found"))).

Definition get_sheet_metadata (args : value) : completion CallToolResult :=
  sheetId <- destructure args (lit "sheetId") ;;
  sheetId_s <- ToString sheetId ;;
  result <- callSheeterAPI
    (lit "/api/sheets/" ++ sheetId_s ++ lit "/metadata") no_options ;;
  sheetsInfo <- sheetsInfo result ;;
  title <-
    interp (properties <- Get result (lit "properties") ;;
            Get properties (lit "title")) ;;
  spreadsheetId <- interp (Get result (lit "spreadsheetId")) ;;
  locale <-
    interp (properties <- Get result (lit "properties") ;;
            Get properties (lit "locale")) ;;
  timeZone <-
    interp (properties <- Get result (lit "properties") ;;
            Get properties (lit "timeZone")) ;;
  Normal (text_result
    (lit "Spreadsheet: " ++ title ++ nl ++ lit "Spreadsheet ID: "
     ++ spreadsheetId ++ nl ++ lit "Locale: " ++ locale ++ nl
     ++ lit "Time Zone: " ++ timeZone ++ nl ++ nl ++ lit "Sheets:" ++ nl
     ++ sheetsInfo)).

Definition delete_rows (args : value) : completion CallToolResult :=
  sheetId <- destructure args (lit "sheetId") ;;
  startIndex <- destructure args (lit "startIndex") ;;
  endIndex <- destructure args (lit "endIndex") ;;
  sheetTabId0 <- destructure args (lit "sheetTabId") ;;
  let sheetTabId := default_to (VNum (num_of_Z 0)) sheetTabId0 in
  startIndex_p <- call_toString (lit "startIndex") startIndex ;;
  endIndex_p <- call_toString (lit "endIndex") endIndex ;;
  sheetTabId_p <- call_toString (lit "sheetTabId") sheetTabId ;;
  queryParams <- URLSearchParams
    [(lit "startIndex", VStr startIndex_p);
     (lit "endIndex", VStr endIndex_p);
     (lit "sheetTabId", VStr sheetTabId_p)] ;;
  sheetId_s <- ToString sheetId ;;
  result <- callSheeterAPI
    (lit "/api/sheets/" ++ sheetId_s ++ lit "/rows?"
     ++ URLSearchParams_toString queryParams)
    {| method := Some (lit "DELETE"); body := None; headers := [] |} ;;
  first <- ToString startIndex ;;
  last <- js_sub endIndex (VNum (num_of_Z 1)) ;;
  total <- js_sub endIndex startIndex ;;
  Normal (text_result
    (lit "Successfully deleted rows from index " ++ first ++ lit " to "
     ++ num_toString last ++ lit " (" ++ num_toString total
     ++ lit " rows total)")).

Definition batch_update_spreadsheet (args : value)
  : completion CallToolResult :=
  sheetId <- destructure args (lit "sheetId") ;;
  requests <- destructure args (lit "requests") ;;
  sheetId_s <- ToString sheetId ;;
  result <- callSheeterAPI
    (lit "/api/sheets/" ++ sheetId_s ++ lit "/batch-update-spreadsheet")
    {| method := Some (lit "POST");
       body := Some (JSON_stringify (VObj [(lit "requests", requests)]));
       headers := [] |} ;;
  count <- interp (Get_length requests) ;;
  Normal (text_result
    (lit "Batch spreadsheet operation completed successfully" ++ nl
     ++ lit "Processed " ++ count ++ lit " requests" ++ nl
     ++ lit "Operation details available in spreadsheet")).

(** The body of the [try] block: the [switch] on the tool's name. *)
Definition switch (name : jstring) (args : value) : completion CallToolResult :=
  if jstring_eqb name (lit "create_spreadsheet") then create_spreadsheet args
  else if jstring_eqb name (lit "read_sheet") then read_sheet args
  else if jstring_eqb name (lit "write_sheet") then write_sheet args
  else if jstring_eqb name (lit "append_to_sheet") then append_to_sheet args
  else if jstring_eqb name (lit "clear_range") then clear_range args
  else if jstring_eqb name (lit "batch_get_ranges") then batch_get_ranges args
  else if jstring_eqb name (lit "batch_update_ranges")
       then batch_update_ranges args
  else if jstring_eqb name (lit "get_sheet_metadata")
       then get_sheet_metadata args
  else if jstring_eqb name (lit "delete_rows") then delete_rows args
  else if jstring_eqb name (lit "batch_update_spreadsheet")
       then batch_update_spreadsheet args
  else Throw (mkError (lit "Unknown tool: " ++ name)).

(** [request.params.arguments]: the SDK's request schema admits a record or
    nothing. *)
Definition arguments_value (arguments : option (object number)) : value :=
  match arguments with
  | Some o => VObj o
  | None => VUndefined
  end.

(** The handler of [CallToolRequestSchema]: the [try] block and its
    [catch] clause.  The destructuring of [request.params] before the [try]
    reads a request the SDK has validated, and does not throw. *)
Definition CallTool (name : jstring) (arguments : option (object number))
  : CallToolResult :=
  match switch name (arguments_value arguments) with
  | Normal r => r
  | Throw e => error_result (lit "Error: " ++ message e)
  end.

End Server.

(** ** The tool catalog *)

Record Tool (number : Type) := {
  name : jstring;
  description : jstring;
  inputSchema : value number
}.

Record ListToolsResult (number : Type) := { tools : list (Tool number) }.

Section Catalog.
Context {number : Type} {NUM : JSNumber number}.

Local Abbreviation value := (value number).

(** Object literals of the source. *)
Definition str (s : string) : value := VStr (lit s).
Definition strs (l : list string) : value := VArr (map str l).
Definition obj (l : list (string * value)) : value :=
  VObj (map (fun kv => (lit (fst kv), snd kv)) l).

Definition schema (properties : list (string * value)) (required : list string)
  : value :=
  obj [("type", str "object");
       ("properties", obj properties);
       ("required", strs required)]%string.

Definition sheetId_property : string * value :=
  ("sheetId",
   obj [("type", str "string"); ("description", str "Google Spreadsheet ID")])%string.

Definition majorDimension_property : string * value :=
  ("majorDimension",
   obj [("type", str "string"); ("enum", strs ["ROWS"; "COLUMNS"]);
        ("default", str "ROWS")])%string.

Definition valueRenderOption_property : string * value :=
  ("valueRenderOption",
   obj [("type", str "string");
        ("enum", strs ["FORMATTED_VALUE"; "UNFORMATTED_VALUE"; "FORMULA"]);
        ("default", str "FORMATTED_VALUE")])%string.

Definition valueInputOption_property : string * value :=
  ("valueInputOption",
   obj [("type", str "string"); ("enum", strs ["RAW"; "USER_ENTERED"]);
        ("default", str "USER_ENTERED")])%string.

Definition string_array : value :=
  obj [("type", str "array");
       ("items", obj [("type", str "string")])]%string.

(** The handler of [ListToolsRequestSchema]: it takes nothing and returns
    this literal. *)
Definition ListTools : ListToolsResult number :=
  {| tools := [
    {| name := lit "create_spreadsheet";
       description := lit "Create a new Google Spreadsheet";
       inputSchema := schema
         [("title", obj [("type", str "string");
                         ("description", str "Title for the new spreadsheet")])]
         ["title"] |};
    {| name := lit "read_sheet";
       description := lit "Read data from a Google Sheet";
       inputSchema := schema
         [sheetId_property;
          ("range", obj [("type", str "string");
                         ("description", str "A1 notation range (e.g., A1:D10)");
                         ("default", str "A:Z")]);
          majorDimension_property;
          valueRenderOption_property]
         ["sheetId"] |};
    {| name := lit "write_sheet";
       description := lit "Update values in a single range of a Google Sheet";
       inputSchema := schema
         [sheetId_property;
          ("range", obj [("type", str "string");
                         ("description", str "A1 notation range (e.g., A1:B2)")]);
          ("values", obj [("type", str "array");
                          ("description", str "2D array of values to write");
                          ("items", string_array)]);
          valueInputOption_property]
         ["sheetId"; "range"; "values"] |};
    {| name := lit "append_to_sheet";
       description := lit "Append values to the end of a Google Sheet";
       inputSchema := schema
         [sheetId_property;
          ("values", obj [("type", str "array");
                          ("description", str "2D array of values to append");
                          ("items", string_array)]);
          valueInputOption_property]
         ["sheetId"; "values"] |};
    {| name := lit "clear_range";
       description := lit "Clear values from a specific range in a Google Sheet";
       inputSchema := schema
         [sheetId_property;
          ("range", obj [("type", str "string");
                         ("description",
                          str "A1 notation range to clear (e.g., A1:B10)")])]
         ["sheetId"; "range"] |};
    {| name := lit "batch_get_ranges";
       description := lit "Read values from multiple ranges in a Google Sheet";
       inputSchema := schema
         [sheetId_property;
          ("ranges", obj [("type", str "array");
                          ("description", str "List of A1 notation ranges");
                          ("items", obj [("type", str "string")])]);
          majorDimension_property;
          valueRenderOption_property]
         ["sheetId"; "ranges"] |};
    {| name := lit "batch_update_ranges";
       description := lit "Update values in multiple ranges of a Google Sheet";
       inputSchema := schema
         [sheetId_property;
          ("data", obj [("type", str "array");
                        ("description",
                         str "List of ranges and their values to update");
                        ("items", obj
                           [("type", str "object");
                            ("properties", obj
                               [("range", obj [("type", str "string")]);
                                ("values", obj [("type", str "array");
                                                ("items", string_array)])]);
                            ("required", strs ["range"; "values"])])]);
          valueInputOption_property]
         ["sheetId"; "data"] |};
    {| name := lit "get_sheet_metadata";
       description :=
         lit "Get information about a Google Spreadsheet including sheets and properties";
       inputSchema := schema [sheetId_property] ["sheetId"] |};
    {| name := lit "delete_rows";
       description := lit "Delete specific rows from a Google Sheet";
       inputSchema := schema
         [sheetId_property;
          ("startIndex", obj [("type", str "number");
                              ("description",
                               str "Start index of rows to delete (0-based)")]);
          ("endIndex", obj [("type", str "number");
                            ("description",
                             str "End index of rows to delete (exclusive, 0-based)")]);
          ("sheetTabId", obj [("type", str "number");
                              ("description",
                               str "ID of the sheet tab (0 for first sheet)");
                              ("default", VNum (num_of_Z 0))])]
         ["sheetId"; "startIndex"; "endIndex"] |};
    {| name := lit "batch_update_spreadsheet";
       description :=
         lit "Perform complex operations like find/replace, formatting, adding sheets, etc.";
       inputSchema := schema
         [sheetId_property;
          ("requests", obj [("type", str "array");
                            ("description",
                             str "Array of batch update requests (find/replace, formatting, etc.)");
                            ("items", obj [("type", str "object")])])]
         ["sheetId"; "requests"] |}
  ]%string |}.

(** The strings of an array of strings. *)
Definition strings_of (v : value) : list jstring :=
  match v with
  | VArr l => flat_map (fun x => match x with VStr s => [s] | _ => [] end) l
  | _ => []
  end.

(** [tool.inputSchema.required] *)
Definition required (t : Tool number) : list jstring :=
  match inputSchema t with
  | VObj o => strings_of (own o (lit "required"))
  | _ => []
  end.

End Catalog.

(** ** The earlier server

    The repository keeps an earlier [index.ts] with the same
    [callSheeterAPI] and two tools only.  Its [read_sheet] sends the range
    alone and reads [result.headers.join] without the [?.]. *)

Module Earlier.
Section Server.
Context {number : Type} {NUM : JSNumber number} {PLAT : Platform number}.
Variable config : Config.
Variable fetch : jstring -> RequestInit -> completion (Response.t number).

Definition create_spreadsheet (args : value number)
  : completion CallToolResult :=
  title <- destructure args (lit "title") ;;
  result <- callSheeterAPI config fetch (lit "/api/sheets/create")
    {| method := Some (lit "POST");
       body := Some (JSON_stringify (VObj [(lit "title", title)]));
       headers := [] |} ;;
  title_s <- ToString title ;;
  spreadsheetId <- interp (Get result (lit "spreadsheetId")) ;;
  Normal (text_result
    (lit "Created spreadsheet: " ++ dquote ++ title_s ++ dquote
     ++ nl ++ lit "ID: " ++ spreadsheetId)).

(** [result.headers.join(", ")] *)
Definition headers_join (headers : value number) : completion jstring :=
  match headers with
  | VUndefined | VNull =>
      TypeError (ReadOfNullish (is_null headers) (lit "join"))
  | VArr l => Array_join (lit ", ") l
  | _ => TypeError (NotAFunction (lit "result.headers.join"))
  end.

Definition read_sheet (args : value number) : completion CallToolResult :=
  sheetId <- destructure args (lit "sheetId") ;;
  range <- destructure args (lit "range") ;;
  queryParams <- URLSearchParams
    [(lit "range", default_to (VStr (lit "A:Z")) range)] ;;
  sheetId_s <- ToString sheetId ;;
  result <- callSheeterAPI config fetch
    (lit "/api/sheets/" ++ sheetId_s ++ lit "?"
     ++ URLSearchParams_toString queryParams) no_options ;;
  rowCount <- interp (Get result (lit "rowCount")) ;;
  headers <- Get result (lit "headers") ;;
  headers_s <- headers_join headers ;;
  Normal (text_result
    (lit "Sheet data (" ++ rowCount ++ lit " rows):" ++ nl
     ++ lit "Headers: " ++ headers_s)).

Definition switch (name : jstring) (args : value number)
  : completion CallToolResult :=
  if jstring_eqb name (lit "create_spreadsheet") then create_spreadsheet args
  else if jstring_eqb name (lit "read_sheet") then read_sheet args
  else Throw (mkError (lit "Unknown tool: " ++ name)).

Definition CallTool (name : jstring) (arguments : option (object number))
  : CallToolResult :=
  match switch name (arguments_value arguments) with
  | Normal r => r
  | Throw e => error_result (lit "Error: " ++ message e)
  end.

End Server.

Section Catalog.
Context {number : Type} {NUM : JSNumber number}.

Definition ListTools : ListToolsResult number :=
  {| tools := [
    {| name := lit "create_spreadsheet";
       description := lit "Create a new Google Spreadsheet";
       inputSchema := schema
         [("title", obj [("type", str "string");
                         ("description", str "Title for the new spreadsheet")])]
         ["title"] |};
    {| name := lit "read_sheet";
       description := lit "Read data from a Google Sheet";
       inputSchema := schema
         [sheetId_property;
          ("range", obj [("type", str "string");
                         ("description", str "A1 notation range");
                         ("default", str "A:Z")])]
         ["sheetId"] |}
  ]%string |}.

End Catalog.
End Earlier.

(** ** The vocabulary of the properties *)

Section Vocabulary.
Context {number : Type} {NUM : JSNumber number} {PLAT : Platform number}.

(** The names of the catalog's entries, in order. *)
Definition tool_names : list jstring := map (@name number) (tools ListTools).

(** A network on which every API call succeeds: each request gets a
    response with an ok status whose body parses. *)
Definition succeeds
    (fetch : jstring -> RequestInit -> completion (Response.t number)) : Prop :=
  forall url init, exists response result,
    fetch url init = Normal response
    /\ Response.ok response = true
    /\ Response.json response = Normal result.

(** A network that answers every request with an ok status and a body that
    parses to the fixture [result]. *)
Definition returns_json
    (fetch : jstring -> RequestInit -> completion (Response.t number))
    (result : value number) : Prop :=
  forall url init, exists response,
    fetch url init = Normal response
    /\ Response.ok response = true
    /\ Response.json response = Normal result.

(** A network that answers every request with status 404 and the body
    ["Not Found"]. *)
Definition not_found
    (fetch : jstring -> RequestInit -> completion (Response.t number))
    (response : Response.t number) : Prop :=
  (forall url init, fetch url init = Normal response)
  /\ Response.status response = 404
  /\ Response.text response = Normal (lit "Not Found").

(** The error of a call whose response is not ok. *)
Definition api_error (response : Response.t number) (body_text : jstring)
  : error :=
  mkError (lit "API call failed: "
           ++ num_toString (num_of_Z (Response.status response))
           ++ lit " " ++ Response.statusText response
           ++ lit " - " ++ body_text).

(** What the catch clause returns for that error when the status is 404
    and the body is ["Not Found"]. *)
Definition not_found_result (response : Response.t number) : CallToolResult :=
  error_result (lit "Error: API call failed: 404 "
                ++ Response.statusText response ++ lit " - Not Found").

(** A value that a template literal can show. *)
Definition renders (v : value number) : Prop :=
  exists s, ToString v = Normal s.

(** The headers line for a response's [headers]. *)
Definition headers_line (headers : value number) : completion jstring :=
  joined <- headers_joined headers ;;
  ToString (js_or joined (VStr (lit "No headers"))).

(** [v.k1.k2...] *)
Fixpoint Get_path (v : value number) (path : list jstring)
  : completion (value number) :=
  match path with
  | [] => Normal v
  | k :: rest => x <- Get v k ;; Get_path x rest
  end.

(** The text [t] shows the value [v]: it has the string of [v] in it. *)
Definition shows (v : value number) (t : jstring) : Prop :=
  exists s, ToString v = Normal s /\ contains s t.

(** The text [t] shows the field of [v] at [path]. *)
Definition shows_field (v : value number) (path : list jstring) (t : jstring)
  : Prop :=
  exists x, Get_path v path = Normal x /\ shows x t.

(** The row count a range's line shows: [vr.values?.length || 0]. *)
Definition shows_row_count (vr : value number) (t : jstring) : Prop :=
  exists len, values_length vr = Normal len
              /\ shows (js_or len (VNum (num_of_Z 0))) t.

(** What a row's line shows: each key of the row and each value. *)
Definition shows_row (row : value number) (t : jstring) : Prop :=
  exists entries,
    Object_entries row = Normal entries
    /\ forall k v, In (k, v) entries -> contains k t /\ shows v t.

End Vocabulary.

(** ** More vocabulary: requests and declared defaults *)

Section RequestVocabulary.
Context {number : Type} {NUM : JSNumber number} {PLAT : Platform number}.

(** The headers of a request whose options give none. *)
Definition default_headers (config : Config) : list (jstring * jstring) :=
  [(lit "Authorization", lit "Bearer " ++ apiKey config);
   (lit "Content-Type", lit "application/json")].

(** An invocation of a handler sends the request [(url, init)]: whatever the
    network is, the result is decided by what [fetch] answers to that one
    request, and a rejected [fetch] gives an error result with its
    message. *)
Definition sends
    (handler : (jstring -> RequestInit -> completion (Response.t number)) ->
               jstring -> option (object number) -> CallToolResult)
    (name : jstring) (arguments : option (object number))
    (url : jstring) (init : RequestInit) : Prop :=
  exists k, forall fetch,
    handler fetch name arguments =
    match fetch url init with
    | Normal response => k response
    | Throw e => error_result (lit "Error: " ++ message e)
    end.

(** [tool.inputSchema.properties[p].default], when the property declares
    one. *)
Definition declared_default (t : Tool number) (p : jstring)
  : option (value number) :=
  match inputSchema t with
  | VObj s =>
      match own s (lit "properties") with
      | VObj ps =>
          match own ps p with
          | VObj q =>
              if has_own q (lit "default") then Some (own q (lit "default"))
              else None
          | _ => None
          end
      | _ => None
      end
  | _ => None
  end.

End RequestVocabulary.

(** ** A runtime to run the model on

    Integers with a [NaN] for the numbers, and V8's messages.  The two
    serialisers are exact on the unreserved ASCII characters and leave the
    others as they are; they only shape the request that [fetch] is given. *)

Module Reference.

Definition number := option Z.

Definition sub (x y : number) : number :=
  match x, y with
  | Some a, Some b => Some (a - b)
  | _, _ => None
  end.

Definition lt (x y : number) : bool :=
  match x, y with
  | Some a, Some b => a <? b
  | _, _ => false
  end.

Definition to_boolean (x : number) : bool :=
  match x with
  | Some a => negb (a =? 0)
  | None => false
  end.

Definition to_string (x : number) : jstring :=
  match x with
  | Some a => decimal a
  | None => lit "NaN"
  end.

Fixpoint digits (acc : Z) (s : jstring) : number :=
  match s with
  | [] => Some acc
  | c :: rest =>
      if ((48 <=? c) && (c <=? 57))%N
      then digits (10 * acc + (Z.of_N c - 48)) rest
      else None
  end.

Definition string_to_number (s : jstring) : number :=
  match s with
  | [] => Some 0
  | 45%N :: (_ :: _) as rest => sub (Some 0) (digits 0 rest)
  | _ => digits 0 s
  end.

#[local] Instance numbers : JSNumber number.
Proof.
  refine {| num_of_Z := Some; NaN := None; num_sub := sub; num_lt := lt;
            num_ToBoolean := to_boolean; num_toString := to_string;
            StringToNumber := string_to_number |}; try reflexivity.
  intros [a|]; reflexivity.
Defined.

Definition search_params (l : list (jstring * jstring)) : jstring :=
  join_strings (lit "&") (map (fun kv => fst kv ++ lit "=" ++ snd kv) l).

Fixpoint stringify (v : value number) : jstring :=
  match v with
  | VUndefined | VNull | VNum None => lit "null"
  | VBool true => lit "true"
  | VBool false => lit "false"
  | VNum (Some a) => decimal a
  | VStr s => dquote ++ s ++ dquote
  | VArr l => lit "[" ++ join_strings (lit ",") (map stringify l) ++ lit "]"
  | VObj o =>
      lit "{"
      ++ join_strings (lit ",")
           (flat_map (fun kv : jstring * value number =>
              let (k, x) := kv in
              match x with
              | VUndefined => []
              | _ => [dquote ++ k ++ dquote ++ lit ":" ++ stringify x]
              end) o)
      ++ lit "}"
  end.

Definition undefined_or_null (is_null : bool) : jstring :=
  if is_null then lit "null" else lit "undefined".

Definition type_error_message (t : type_error) : jstring :=
  match t with
  | DestructureNullish n k =>
      lit "Cannot destructure property '" ++ k ++ lit "' of 'args' as it is "
      ++ undefined_or_null n ++ lit "."
  | ReadOfNullish n k =>
      lit "Cannot read properties of " ++ undefined_or_null n
      ++ lit " (reading '" ++ k ++ lit "')"
  | NotAFunction callee => callee ++ lit " is not a function"
  | NoPrimitiveValue => lit "Cannot convert object to primitive value"
  | EntriesOfNullish => lit "Cannot convert undefined or null to object"
  end.

#[local] Instance platform : Platform number :=
  {| URLSearchParams_toString := search_params;
     JSON_stringify := stringify;
     TypeError_message := type_error_message |}.

(** A mocked network: every request gets the same response. *)
Definition mock (r : Response.t number) (url : jstring) (init : RequestInit)
  : completion (Response.t number) :=
  Normal r.

(** A response with status 200 whose body parses to [result]. *)
Definition fixture (result : value number) : Response.t number :=
  {| Response.status := 200;
     Response.statusText := lit "OK";
     Response.text := Normal (stringify result);
     Response.json := Normal result |}.

Definition config : Config :=
  {| apiKey := lit "key"; baseUrl := lit "https://sheeter-2.onrender.com" |}.

(** A response with status 404 and the body ["Not Found"]. *)
Definition not_found_response : Response.t number :=
  {| Response.status := 404;
     Response.statusText := lit "Not Found";
     Response.text := Normal (lit "Not Found");
     Response.json :=
       Throw (mkError (lit "Unexpected token 'N', ... is not valid JSON")) |}.

(** Arguments and fixtures of the examples. *)
Definition sheet_arguments : object number :=
  [(lit "sheetId", VStr (lit "abc"))].

Definition delete_rows_arguments : object number :=
  [(lit "sheetId", VStr (lit "abc"));
   (lit "startIndex", VNum (Some 2));
   (lit "endIndex", VNum (Some 5))].

Definition create_arguments : object number :=
  [(lit "title", VStr (lit "Budget"))].

Definition created_fixture : value number :=
  VObj [(lit "success", VBool true);
        (lit "spreadsheetId", VStr (lit "id1"));
        (lit "spreadsheetUrl", VStr (lit "https://sheets/id1"));
        (lit "message", VStr (lit "Created OK"))].

Definition deleted_fixture : value number :=
  VObj [(lit "success", VBool true); (lit "deletedRows", VNum (Some 7))].

(** The [i]-th row of a sheet: [{ name: "item<i>", qty: i }]. *)
Definition row_fixture (i : nat) : value number :=
  VObj [(lit "name", VStr (lit "item" ++ decimal (Z.of_nat i)));
        (lit "qty", VNum (Some (Z.of_nat i)))].

Definition rows_fixture (n : nat) : list (value number) :=
  map row_fixture (seq 1 n).

Definition sheet_fixture (n : nat) : object number :=
  [(lit "success", VBool true);
   (lit "data", VArr (rows_fixture n));
   (lit "headers", VArr [VStr (lit "name"); VStr (lit "qty")]);
   (lit "rowCount", VNum (Some (Z.of_nat n)));
   (lit "range", VStr (lit "A:Z"))].

Definition empty_sheet_fixture : object number :=
  [(lit "success", VBool true);
   (lit "data", VArr []);
   (lit "rowCount", VNum (Some 0));
   (lit "range", VStr (lit "A:Z"))].

Definition metadata_fixture : value number :=
  VObj [(lit "spreadsheetId", VStr (lit "id1"));
        (lit "properties",
         VObj [(lit "title", VStr (lit "Budget"));
               (lit "locale", VStr (lit "en_US"));
               (lit "timeZone", VStr (lit "Etc/UTC"))]);
        (lit "sheets",
         VArr [VObj [(lit "sheetId", VNum (Some 0));
                     (lit "title", VStr (lit "Sheet1"));
                     (lit "gridProperties",
                      VObj [(lit "rowCount", VNum (Some 1000));
                            (lit "columnCount", VNum (Some 26))])]])].

(** The texts the examples expect. *)
Definition created_text : jstring :=
  lit "Successfully created spreadsheet: " ++ dquote ++ lit "Budget" ++ dquote
  ++ nl ++ lit "Spreadsheet ID: id1"
  ++ nl ++ lit "URL: https://sheets/id1".

Definition deleted_text : jstring :=
  lit "Successfully deleted rows from index 2 to 4 (3 rows total)".

Definition ten_lines : list jstring :=
  [lit "Row 1: name: item1, qty: 1"; lit "Row 2: name: item2, qty: 2";
   lit "Row 3: name: item3, qty: 3"; lit "Row 4: name: item4, qty: 4";
   lit "Row 5: name: item5, qty: 5"; lit "Row 6: name: item6, qty: 6";
   lit "Row 7: name: item7, qty: 7"; lit "Row 8: name: item8, qty: 8";
   lit "Row 9: name: item9, qty: 9"; lit "Row 10: name: item10, qty: 10"].

Definition eleven_rows_text : jstring :=
  lit "Sheet Data from A:Z (11 rows):" ++ nl ++ nl
  ++ lit "Headers: name, qty" ++ nl ++ nl
  ++ lit "Data:" ++ nl
  ++ join_strings nl ten_lines ++ nl
  ++ lit "... and 1 more rows".

Definition no_data_text : jstring :=
  lit "Sheet Data from A:Z (0 rows):" ++ nl ++ nl
  ++ lit "Headers: No headers" ++ nl ++ nl
  ++ lit "Data:" ++ nl
  ++ lit "No data found".

Definition not_found_text : jstring :=
  lit "Error: API call failed: 404 Not Found - Not Found".

(** A response with status 200 whose body is not JSON. *)
Definition unparsable_response : Response.t number :=
  {| Response.status := 200;
     Response.statusText := lit "OK";
     Response.text := Normal (lit "<html>");
     Response.json :=
       Throw (mkError (lit "Unexpected token '<', ... is not valid JSON")) |}.

(** A sheet of [n] declared rows with the given rows. *)
Definition sheet_with_rows (n : nat) (rows : list (value number))
  : object number :=
  [(lit "success", VBool true);
   (lit "data", VArr rows);
   (lit "headers", VArr [VStr (lit "name"); VStr (lit "qty")]);
   (lit "rowCount", VNum (Some (Z.of_nat n)));
   (lit "range", VStr (lit "A:Z"))].

Definition two_lines : list jstring :=
  [lit "Row 1: name: item1, qty: 1"; lit "Row 2: name: item2, qty: 2"].

Definition two_rows_text : jstring :=
  lit "Sheet Data from A:Z (2 rows):" ++ nl ++ nl
  ++ lit "Headers: name, qty" ++ nl ++ nl
  ++ lit "Data:" ++ nl
  ++ join_strings nl two_lines.

Definition range_only : object number :=
  [(lit "range", VStr (lit "A1:B2"))].

End Reference.

Unset Implicit Arguments.

(** * Properties

    ** Strings *)


Lemma jstring_eqb_eq (s t : jstring) : jstring_eqb s t = true <-> s = t.
Proof.
  revert t; induction s as [|a s IH]; intros [|b t]; simpl; split;
    try congruence; try reflexivity.
  - intros H. apply andb_true_iff in H as [Hab Hst].
    apply N.eqb_eq in Hab. apply IH in Hst. congruence.
  - intros H. injection H as -> ->. apply andb_true_iff. split.
    + apply N.eqb_refl.
    + now apply IH.
Qed.

Lemma jstring_eqb_refl (s : jstring) : jstring_eqb s s = true.
Proof. now apply jstring_eqb_eq. Qed.

Lemma jstring_eqb_neq (s t : jstring) : s <> t -> jstring_eqb s t = false.
Proof.
  intros H. destruct (jstring_eqb s t) eqn:E; [|reflexivity].
  now apply jstring_eqb_eq in E.
Qed.

Lemma jstring_eqb_sym_false (s t : jstring) :
  jstring_eqb s t = false -> jstring_eqb t s = false.
Proof.
  intros H. apply jstring_eqb_neq. intros ->.
  now rewrite jstring_eqb_refl in H.
Qed.

Lemma contains_refl (s : jstring) : contains s s.
Proof. exists [], []. now rewrite app_nil_r. Qed.

Lemma contains_here (s post : jstring) : contains s (s ++ post).
Proof. now exists [], post. Qed.

Lemma contains_app_l (s pre text : jstring) :
  contains s text -> contains s (pre ++ text).
Proof.
  intros (p & q & ->). exists (pre ++ p), q. now rewrite app_assoc.
Qed.

Lemma contains_app_r (s text post : jstring) :
  contains s text -> contains s (text ++ post).
Proof.
  intros (p & q & ->). exists p, (q ++ post). now rewrite <- !app_assoc.
Qed.

Lemma contains_trans (s t u : jstring) :
  contains s t -> contains t u -> contains s u.
Proof.
  intros (p & q & ->) (p' & q' & ->).
  exists (p' ++ p), (q ++ q'). now rewrite <- !app_assoc.
Qed.

Lemma contains_nil (text : jstring) : contains [] text.
Proof. now exists [], text. Qed.

Lemma starts_with_spec (s text : jstring) :
  starts_with s text = true <-> exists post, text = s ++ post.
Proof.
  revert text; induction s as [|a s IH]; intros text; simpl.
  - split; [now exists text | reflexivity].
  - destruct text as [|b text].
    + split; [discriminate | now intros (post & H)].
    + rewrite andb_true_iff, N.eqb_eq, IH. split.
      * intros (-> & post & ->). now exists post.
      * intros (post & H). injection H as -> ->. split; [reflexivity | now exists post].
Qed.

Lemma includes_spec (text s : jstring) :
  includes text s = true <-> contains s text.
Proof.
  induction text as [|b text IH]; simpl.
  - rewrite orb_false_r, starts_with_spec. split.
    + intros (post & H). now exists [], post.
    + intros (pre & post & H). symmetry in H.
      apply app_eq_nil in H as (-> & H). now exists post.
  - rewrite orb_true_iff, starts_with_spec, IH. split.
    + intros [(post & ->) | H].
      * apply contains_here.
      * now apply (contains_app_l s [b] text).
    + intros ([|c pre] & post & H).
      * left. now exists post.
      * right. injection H as -> ->. now exists pre, post.
Qed.

Lemma not_includes (text s : jstring) :
  includes text s = false -> ~ contains s text.
Proof.
  intros H C. apply includes_spec in C. congruence.
Qed.

Lemma contains_join (sep line : jstring) (lines : list jstring) :
  In line lines -> contains line (join_strings sep lines).
Proof.
  induction lines as [|l lines IH]; [easy|].
  intros [-> | H].
  - destruct lines; [apply contains_refl | apply contains_here].
  - destruct lines as [|l' lines]; [easy|].
    change (join_strings sep (l :: l' :: lines))
      with (l ++ sep ++ join_strings sep (l' :: lines)).
    now apply contains_app_l, contains_app_l, IH.
Qed.

Lemma join_strings_nil (sep : jstring) (lines : list jstring) :
  join_strings sep lines = [] -> forall line, In line lines -> line = [].
Proof.
  induction lines as [|l lines IH]; [easy|].
  destruct lines as [|l' lines].
  - simpl. intros -> line [<- | []]. reflexivity.
  - change (join_strings sep (l :: l' :: lines))
      with (l ++ sep ++ join_strings sep (l' :: lines)).
    intros H. apply app_eq_nil in H as (-> & H).
    apply app_eq_nil in H as (_ & H).
    intros line [<- | Hin]; [reflexivity | now apply IH].
Qed.

(** * The error monad *)

Lemma bind_Normal {A B} (c : completion A) (k : A -> completion B) (b : B) :
  bind c k = Normal b -> exists a, c = Normal a /\ k a = Normal b.
Proof. destruct c as [a|e]; [now exists a | discriminate]. Qed.

Lemma mapM_In {A B} (f : A -> completion B) (l : list A) (ys : list B) :
  mapM f l = Normal ys ->
  forall x, In x l -> exists y, f x = Normal y /\ In y ys.
Proof.
  revert ys; induction l as [|a l IH]; intros ys H x Hin; [easy|].
  simpl in H. apply bind_Normal in H as (y & Hy & H).
  apply bind_Normal in H as (ys' & Hys & H). injection H as <-.
  destruct Hin as [<- | Hin].
  - exists y. split; [assumption | now left].
  - destruct (IH _ Hys _ Hin) as (y' & ? & ?). exists y'. split; [assumption | now right].
Qed.

Lemma mapMi_from_In {A B} (f : A -> nat -> completion B) (l : list A) :
  forall idx ys, mapMi_from f idx l = Normal ys ->
  forall x, In x l -> exists i y, f x i = Normal y /\ In y ys.
Proof.
  induction l as [|a l IH]; intros idx ys H x Hin; [easy|].
  simpl in H. apply bind_Normal in H as (y & Hy & H).
  apply bind_Normal in H as (ys' & Hys & H). injection H as <-.
  destruct Hin as [<- | Hin].
  - exists idx, y. split; [assumption | now left].
  - destruct (IH _ _ Hys _ Hin) as (i & y' & ? & ?).
    exists i, y'. split; [assumption | now right].
Qed.

Lemma mapMi_from_length {A B} (f : A -> nat -> completion B) (l : list A) :
  forall idx ys, mapMi_from f idx l = Normal ys -> List.length ys = List.length l.
Proof.
  induction l as [|a l IH]; intros idx ys H; simpl in H.
  - now injection H as <-.
  - apply bind_Normal in H as (y & Hy & H).
    apply bind_Normal in H as (ys' & Hys & H). injection H as <-.
    simpl. now rewrite (IH _ _ Hys).
Qed.

(** From [(x <- c ;; k) = Normal r], the value of each step. *)
Ltac invert_binds H :=
  repeat (cbv zeta in H;
          let a := fresh "a" in
          let E := fresh "E" in
          apply bind_Normal in H as (a & E & H)).

(** ** The dispatcher's outer boundary *)

Section Boundary.
Context {number : Type} {NUM : JSNumber number} {PLAT : Platform number}.
Variable config : Config.
Variable fetch : jstring -> RequestInit -> completion (Response.t number).

(** A branch that returns, returns one text item and no [isError]. *)
Lemma switch_returns_text (name : jstring) (args : value number)
    (r : CallToolResult) :
  switch config fetch name args = Normal r -> exists t, r = text_result t.
Proof.
  unfold switch. intros H.
  repeat match type of H with
         | (if ?b then _ else _) = _ => destruct b
         end;
    try discriminate;
    [ unfold create_spreadsheet in H | unfold read_sheet in H
    | unfold write_sheet in H | unfold append_to_sheet in H
    | unfold clear_range in H | unfold batch_get_ranges in H
    | unfold batch_update_ranges in H | unfold get_sheet_metadata in H
    | unfold delete_rows in H | unfold batch_update_spreadsheet in H ];
    invert_binds H; injection H as <-; eexists; reflexivity.
Qed.

(** C1.  Whatever the tool name, the arguments and the network do, the
    handler returns a result object with exactly one text item.  When the
    [try] block returns, that is its result, without [isError]; when anything
    inside it throws (the extraction of an argument, the API call, the
    formatting, the unknown-tool case), the handler returns the text
    ["Error: "] followed by the error's message, with [isError] set to
    [true]. *)
Theorem CallTool_catches_every_error (name : jstring)
    (arguments : option (object number)) :
  (exists t,
     content (CallTool config fetch name arguments)
     = [{| type := lit "text"; text := t |}])
  /\ match switch config fetch name (arguments_value arguments) with
     | Normal r =>
         exists t, r = text_result t
                   /\ CallTool config fetch name arguments = text_result t
     | Throw e =>
         CallTool config fetch name arguments =
         {| content := [{| type := lit "text";
                           text := lit "Error: " ++ message e |}];
            isError := Some true |}
     end.
Proof.
  unfold CallTool.
  destruct (switch config fetch name (arguments_value arguments)) as [r|e] eqn:E.
  - destruct (switch_returns_text _ _ _ E) as (t & ->).
    split; exists t; [reflexivity | now split].
  - split; [eexists|]; reflexivity.
Qed.

End Boundary.

(** ** The catalog and the names the dispatcher knows *)

Section CatalogFacts.
Context {number : Type} {NUM : JSNumber number} {PLAT : Platform number}.


(** C7.  Listing the tools takes no input and reads no state: it is a
    constant.  It has one entry for each of the ten tool names, and the
    [required] list of each entry is the one of the table in section 4.1. *)
Theorem ListTools_names_and_required :
  map (fun t : Tool number => (name t, required t)) (tools ListTools) =
  [ (lit "create_spreadsheet", [lit "title"]);
    (lit "read_sheet", [lit "sheetId"]);
    (lit "write_sheet", [lit "sheetId"; lit "range"; lit "values"]);
    (lit "append_to_sheet", [lit "sheetId"; lit "values"]);
    (lit "clear_range", [lit "sheetId"; lit "range"]);
    (lit "batch_get_ranges", [lit "sheetId"; lit "ranges"]);
    (lit "batch_update_ranges", [lit "sheetId"; lit "data"]);
    (lit "get_sheet_metadata", [lit "sheetId"]);
    (lit "delete_rows", [lit "sheetId"; lit "startIndex"; lit "endIndex"]);
    (lit "batch_update_spreadsheet", [lit "sheetId"; lit "requests"]) ]
  /\ List.length (tools (@ListTools number NUM)) = 10%nat
  /\ NoDup tool_names.
Proof.
  split; [reflexivity | split; [reflexivity|]].
  unfold tool_names. cbn [map tools ListTools name].
  repeat (constructor;
          [ cbn [In]; intros H;
            repeat (destruct H as [H | H]; [discriminate H|]); exact H | ]).
  constructor.
Qed.

Variable config : Config.
Variable fetch : jstring -> RequestInit -> completion (Response.t number).

Lemma switch_unknown (tool : jstring) (args : value number) :
  ~ In tool tool_names ->
  switch config fetch tool args = Throw (mkError (lit "Unknown tool: " ++ tool)).
Proof.
  intros H. unfold switch.
  repeat match goal with
         | |- (if jstring_eqb tool ?l then _ else _) = _ =>
             destruct (jstring_eqb tool l) eqn:E;
             [ exfalso; apply H; apply jstring_eqb_eq in E; rewrite E;
               unfold tool_names; cbn [map tools ListTools name In];
               repeat (try (left; reflexivity); right)
             | clear E ]
         end.
  reflexivity.
Qed.

(** C6.  A tool name outside the catalog gets an error result whose text is
    ["Error: Unknown tool: "] followed by the name; nothing is thrown out of
    the handler, which is a total function. *)
Theorem CallTool_unknown_tool (name : jstring)
    (arguments : option (object number)) :
  ~ In name tool_names ->
  CallTool config fetch name arguments =
    error_result (lit "Error: Unknown tool: " ++ name)
  /\ isError (CallTool config fetch name arguments) = Some true
  /\ exists t, content (CallTool config fetch name arguments)
               = [{| type := lit "text"; text := t |}]
               /\ contains (lit "Unknown tool: " ++ name) t.
Proof.
  intros H. unfold CallTool. rewrite (switch_unknown _ _ H). cbn [message].
  split; [reflexivity | split; [reflexivity|]].
  eexists. split; [reflexivity|].
  apply (contains_app_l _ (lit "Error: ")), contains_refl.
Qed.

End CatalogFacts.

(** ** Row deletion *)

Section DeleteRows.
Context {number : Type} {NUM : JSNumber number} {PLAT : Platform number}.
Variable config : Config.
Variable fetch : jstring -> RequestInit -> completion (Response.t number).

(** An invocation without [isError] is one whose [try] block returned. *)
Lemma CallTool_success (name : jstring) (arguments : option (object number)) :
  isError (CallTool config fetch name arguments) = None ->
  exists r, switch config fetch name (arguments_value arguments) = Normal r
            /\ CallTool config fetch name arguments = r.
Proof.
  unfold CallTool.
  destruct (switch config fetch name (arguments_value arguments)) as [r|e].
  - intros _. now exists r.
  - discriminate.
Qed.

Lemma delete_rows_text (o : object number) (a b : number) :
  own o (lit "startIndex") = VNum a ->
  own o (lit "endIndex") = VNum b ->
  isError (CallTool config fetch (lit "delete_rows") (Some o)) = None ->
  CallTool config fetch (lit "delete_rows") (Some o) =
  text_result
    (lit "Successfully deleted rows from index " ++ num_toString a
     ++ lit " to " ++ num_toString (num_sub b (num_of_Z 1))
     ++ lit " (" ++ num_toString (num_sub b a) ++ lit " rows total)").
Proof.
  intros Ha Hb H. apply CallTool_success in H as (r & H & ->).
  change (switch config fetch (lit "delete_rows") (arguments_value (Some o)))
    with (delete_rows config fetch (VObj o)) in H.
  unfold delete_rows in H. invert_binds H.
  cbn [destructure] in *.
  injection E0 as <-. injection E1 as <-. rewrite Ha, Hb in *.
  cbn [ToString js_sub ToNumber bind] in *.
  injection E9 as <-. injection E10 as <-. injection E11 as <-.
  now injection H as <-.
Qed.

(** C5.  A successful [delete_rows] invocation whose [startIndex] and
    [endIndex] are numbers reports the span from [startIndex] to
    [endIndex - 1] and the total [endIndex - startIndex].  On safe integers
    these are the integers' own difference in decimal, and for 2 and 5 the
    text reads "2 to 4" and "3 rows total". *)
Theorem delete_rows_reports_span (o : object number) (a b : number) :
  own o (lit "startIndex") = VNum a ->
  own o (lit "endIndex") = VNum b ->
  isError (CallTool config fetch (lit "delete_rows") (Some o)) = None ->
  CallTool config fetch (lit "delete_rows") (Some o) =
    text_result
      (lit "Successfully deleted rows from index " ++ num_toString a
       ++ lit " to " ++ num_toString (num_sub b (num_of_Z 1))
       ++ lit " (" ++ num_toString (num_sub b a) ++ lit " rows total)")
  /\ (forall s e : Z,
        a = num_of_Z s -> b = num_of_Z e ->
        safe s -> safe e -> safe (e - 1) -> safe (e - s) ->
        CallTool config fetch (lit "delete_rows") (Some o) =
          text_result
            (lit "Successfully deleted rows from index " ++ decimal s
             ++ lit " to " ++ decimal (e - 1)
             ++ lit " (" ++ decimal (e - s) ++ lit " rows total)"))
  /\ (a = num_of_Z 2 -> b = num_of_Z 5 ->
      exists t,
        CallTool config fetch (lit "delete_rows") (Some o) = text_result t
        /\ contains (lit "2 to 4") t
        /\ contains (lit "3 rows total") t).
Proof.
  intros Ha Hb H. pose proof (delete_rows_text o a b Ha Hb H) as T.
  assert (D : forall s e : Z,
             a = num_of_Z s -> b = num_of_Z e ->
             safe s -> safe e -> safe (e - 1) -> safe (e - s) ->
             CallTool config fetch (lit "delete_rows") (Some o) =
               text_result
                 (lit "Successfully deleted rows from index " ++ decimal s
                  ++ lit " to " ++ decimal (e - 1)
                  ++ lit " (" ++ decimal (e - s) ++ lit " rows total)")).
  { intros s e -> -> Ss Se Se1 Ses. rewrite T.
    assert (S1 : safe 1) by (unfold safe; lia).
    rewrite (num_sub_exact Se S1 Se1), (num_sub_exact Se Ss Ses).
    now rewrite !num_toString_exact by assumption. }
  split; [exact T | split; [exact D|]].
  intros A B. eexists. split.
  - apply (D 2 5 A B); unfold safe; lia.
  - split.
    + exists (lit "Successfully deleted rows from index "), (lit " (3 rows total)").
      reflexivity.
    + exists (lit "Successfully deleted rows from index 2 to 4 ("), (lit ")").
      reflexivity.
Qed.

End DeleteRows.

(** ** Branches that do not read the response *)

Section ResponseIndependence.
Context {number : Type} {NUM : JSNumber number} {PLAT : Platform number}.
Variable config : Config.


Lemma callSheeterAPI_succeeds fetch (endpoint : jstring) (options : RequestInit) :
  succeeds fetch ->
  exists result, callSheeterAPI config fetch endpoint options = Normal result.
Proof.
  intros S. unfold callSheeterAPI.
  destruct (S (baseUrl config ++ endpoint) (request_init config options))
    as (response & result & -> & Hok & Hjson).
  cbn [bind]. rewrite Hok. cbn [negb]. now exists result.
Qed.

(** Case analysis on every step of two runs of one branch on two networks:
    the steps before the call are the same, the calls both return, and what
    follows does not mention what they returned. *)
Ltac same_steps S1 S2 :=
  repeat match goal with
         | |- context [bind (callSheeterAPI config ?f ?ep ?o) _] =>
             first [ destruct (callSheeterAPI_succeeds f ep o S1) as (? & ->)
                   | destruct (callSheeterAPI_succeeds f ep o S2) as (? & ->) ];
             cbn [bind]
         | |- context [bind ?c _] => destruct c; cbn [bind]
         end;
  try reflexivity.

(** C9.  For [delete_rows] and [batch_update_spreadsheet], two invocations
    with the same arguments on two networks whose API calls succeed return
    the same result, whatever the two response bodies are. *)
Theorem response_not_inspected fetch1 fetch2
    (arguments : option (object number)) :
  succeeds fetch1 -> succeeds fetch2 ->
  CallTool config fetch1 (lit "delete_rows") arguments
    = CallTool config fetch2 (lit "delete_rows") arguments
  /\ CallTool config fetch1 (lit "batch_update_spreadsheet") arguments
     = CallTool config fetch2 (lit "batch_update_spreadsheet") arguments.
Proof.
  intros S1 S2. unfold CallTool. split.
  - change (switch config fetch1 (lit "delete_rows") (arguments_value arguments))
      with (delete_rows config fetch1 (arguments_value arguments)).
    change (switch config fetch2 (lit "delete_rows") (arguments_value arguments))
      with (delete_rows config fetch2 (arguments_value arguments)).
    unfold delete_rows. same_steps S1 S2.
  - change (switch config fetch1 (lit "batch_update_spreadsheet")
              (arguments_value arguments))
      with (batch_update_spreadsheet config fetch1 (arguments_value arguments)).
    change (switch config fetch2 (lit "batch_update_spreadsheet")
              (arguments_value arguments))
      with (batch_update_spreadsheet config fetch2 (arguments_value arguments)).
    unfold batch_update_spreadsheet. same_steps S1 S2.
Qed.

End ResponseIndependence.

(** ** A mocked client *)

Section Mocked.
Context {number : Type} {NUM : JSNumber number} {PLAT : Platform number}.
Variable config : Config.


Lemma callSheeterAPI_returns fetch (result : value number)
    (endpoint : jstring) (options : RequestInit) :
  returns_json fetch result ->
  callSheeterAPI config fetch endpoint options = Normal result.
Proof.
  intros R. unfold callSheeterAPI.
  destruct (R (baseUrl config ++ endpoint) (request_init config options))
    as (response & -> & Hok & Hjson).
  cbn [bind]. rewrite Hok. exact Hjson.
Qed.

Lemma callSheeterAPI_ext fetch1 fetch2 (endpoint : jstring)
    (options : RequestInit) :
  (forall url init, fetch1 url init = fetch2 url init) ->
  callSheeterAPI config fetch1 endpoint options
  = callSheeterAPI config fetch2 endpoint options.
Proof. intros H. unfold callSheeterAPI. now rewrite H. Qed.

(** C8.  [get_sheet_metadata] keeps nothing between invocations: its result
    is a function of the arguments and of what the network answers.  Two
    invocations with the same arguments against the same remote give the
    same result, text included; and the same holds for two remotes that
    answer with the same parsed body. *)
Theorem get_sheet_metadata_deterministic fetch1 fetch2
    (arguments : option (object number)) :
  ((forall url init, fetch1 url init = fetch2 url init) ->
   CallTool config fetch1 (lit "get_sheet_metadata") arguments
   = CallTool config fetch2 (lit "get_sheet_metadata") arguments)
  /\ (forall result,
        returns_json fetch1 result -> returns_json fetch2 result ->
        CallTool config fetch1 (lit "get_sheet_metadata") arguments
        = CallTool config fetch2 (lit "get_sheet_metadata") arguments).
Proof.
  unfold CallTool.
  change (switch config fetch1 (lit "get_sheet_metadata")
            (arguments_value arguments))
    with (get_sheet_metadata config fetch1 (arguments_value arguments)).
  change (switch config fetch2 (lit "get_sheet_metadata")
            (arguments_value arguments))
    with (get_sheet_metadata config fetch2 (arguments_value arguments)).
  unfold get_sheet_metadata.
  destruct (destructure (arguments_value arguments) (lit "sheetId"))
    as [sheetId|e]; cbn [bind]; [|split; reflexivity].
  destruct (ToString sheetId) as [sheetId_s|e]; cbn [bind];
    [|split; reflexivity].
  split.
  - intros H. now rewrite (callSheeterAPI_ext fetch1 fetch2 _ _ H).
  - intros result R1 R2.
    now rewrite (callSheeterAPI_returns fetch1 result _ _ R1),
                (callSheeterAPI_returns fetch2 result _ _ R2).
Qed.

End Mocked.

(** ** Reading a sheet *)

Section ReadSheet.
Context {number : Type} {NUM : JSNumber number} {PLAT : Platform number}.
Variable config : Config.
Variable fetch : jstring -> RequestInit -> completion (Response.t number).


Lemma renders_default (d : jstring) (v : value number) :
  renders v -> renders (default_to (VStr d) v).
Proof. destruct v; intros H; try exact H. now exists d. Qed.


Lemma read_sheet_returns (o ro : object number)
    (range_s rowCount headers_s data_s : jstring) :
  (forall k, renders (own o k)) ->
  returns_json fetch (VObj ro) ->
  dataText (VObj ro) = Normal data_s ->
  ToString (own ro (lit "range")) = Normal range_s ->
  ToString (own ro (lit "rowCount")) = Normal rowCount ->
  headers_line (own ro (lit "headers")) = Normal headers_s ->
  CallTool config fetch (lit "read_sheet") (Some o) =
  text_result
    (lit "Sheet Data from " ++ range_s ++ lit " (" ++ rowCount
     ++ lit " rows):" ++ nl ++ nl ++ lit "Headers: " ++ headers_s
     ++ nl ++ nl ++ lit "Data:" ++ nl ++ data_s).
Proof.
  intros Hargs R Hdata Hrange Hrows Hheaders. unfold CallTool.
  change (switch config fetch (lit "read_sheet") (arguments_value (Some o)))
    with (read_sheet config fetch (VObj o)).
  unfold read_sheet. cbn [destructure bind].
  unfold URLSearchParams. cbn [mapM snd fst].
  destruct (renders_default (lit "A:Z") _ (Hargs (lit "range"))) as (s1 & ->).
  destruct (renders_default (lit "ROWS") _ (Hargs (lit "majorDimension")))
    as (s2 & ->).
  destruct (renders_default (lit "FORMATTED_VALUE") _
              (Hargs (lit "valueRenderOption"))) as (s3 & ->).
  destruct (Hargs (lit "sheetId")) as (s0 & ->). cbn [bind].
  rewrite (callSheeterAPI_returns config fetch (VObj ro) _ _ R). cbn [bind].
  rewrite Hdata. cbn [bind]. unfold interp. cbn [Get bind].
  rewrite Hrange, Hrows. cbn [bind].
  unfold headers_line in Hheaders.
  destruct (headers_joined (own ro (lit "headers"))) as [joined|e];
    [|discriminate]. cbn [bind] in *. rewrite Hheaders. reflexivity.
Qed.

Lemma dataText_no_data (ro : object number) :
  own ro (lit "data") = VUndefined \/ own ro (lit "data") = VArr [] ->
  dataText (VObj ro) = Normal (lit "No data found").
Proof.
  intros H. unfold dataText. cbn [Get bind].
  destruct H as [-> | ->];
    cbn [Get_length_opt nullish Get_length js_gt ToNumber bind length_value
         List.length].
  - now rewrite num_lt_NaN.
  - rewrite num_lt_exact by (unfold safe; cbn; lia). reflexivity.
Qed.

Lemma dataText_more_than_ten (ro : object number) (rows : list (value number))
    (lines : list jstring) :
  own ro (lit "data") = VArr rows ->
  (10 < List.length rows)%nat ->
  safe (Z.of_nat (List.length rows)) ->
  mapMi format_row (firstn 10 rows) = Normal lines ->
  dataText (VObj ro) =
  Normal (join_strings nl lines ++ nl ++ lit "... and "
          ++ decimal (Z.of_nat (List.length rows) - 10) ++ lit " more rows").
Proof.
  intros Hdata Hlen Hsafe Hlines. unfold dataText. cbn [Get bind].
  rewrite Hdata.
  cbn [Get_length_opt nullish Get_length js_gt js_sub ToNumber bind
       length_value].
  assert (S0 : safe 0) by (unfold safe; lia).
  assert (S10 : safe 10) by (unfold safe; lia).
  assert (Sd : safe (Z.of_nat (List.length rows) - 10)) by (unfold safe in *; lia).
  rewrite (num_lt_exact S0 Hsafe).
  replace (0 <? Z.of_nat (List.length rows)) with true
    by (symmetry; apply Z.ltb_lt; lia).
  rewrite Hlines. cbn [bind].
  rewrite (num_lt_exact S10 Hsafe).
  replace (10 <? Z.of_nat (List.length rows)) with true
    by (symmetry; apply Z.ltb_lt; lia).
  cbn [bind]. rewrite (num_sub_exact Hsafe S10 Sd).
  now rewrite (num_toString_exact Sd).
Qed.

Lemma headers_line_no_headers (headers : value number) :
  headers = VUndefined \/ headers = VArr [] ->
  headers_line headers = Normal (lit "No headers").
Proof. intros [-> | ->]; reflexivity. Qed.

(** C10.  When the response's [data] is absent or empty, a [read_sheet]
    invocation whose arguments and whose [range] and [rowCount] can be shown
    returns a result without [isError] in which ["No data found"] stands in
    the place of the row listing; and when [headers] is absent or empty, the
    headers line reads ["No headers"]. *)
Theorem read_sheet_no_data (o ro : object number)
    (range_s rowCount headers_s : jstring) :
  (forall k, renders (own o k)) ->
  returns_json fetch (VObj ro) ->
  own ro (lit "data") = VUndefined \/ own ro (lit "data") = VArr [] ->
  ToString (own ro (lit "range")) = Normal range_s ->
  ToString (own ro (lit "rowCount")) = Normal rowCount ->
  headers_line (own ro (lit "headers")) = Normal headers_s ->
  CallTool config fetch (lit "read_sheet") (Some o) =
    text_result
      (lit "Sheet Data from " ++ range_s ++ lit " (" ++ rowCount
       ++ lit " rows):" ++ nl ++ nl ++ lit "Headers: " ++ headers_s
       ++ nl ++ nl ++ lit "Data:" ++ nl ++ lit "No data found")
  /\ isError (CallTool config fetch (lit "read_sheet") (Some o)) = None
  /\ (own ro (lit "headers") = VUndefined
      \/ own ro (lit "headers") = VArr [] ->
      headers_s = lit "No headers").
Proof.
  intros Hargs R Hdata Hrange Hrows Hheaders.
  pose proof (read_sheet_returns o ro _ _ _ _ Hargs R
                (dataText_no_data ro Hdata) Hrange Hrows Hheaders) as T.
  split; [exact T | split].
  - now rewrite T.
  - intros H. rewrite (headers_line_no_headers _ H) in Hheaders.
    now injection Hheaders as <-.
Qed.

(** C4, as the code has it.  When the response's [data] has more than ten
    rows and the first ten can be shown, the listing is those ten lines, and
    on a line of its own the marker ["... and N more rows"], N being the
    length less ten; with eleven rows the marker is
    ["... and 1 more rows"]. *)
Theorem read_sheet_truncates (o ro : object number)
    (rows : list (value number)) (lines : list jstring)
    (range_s rowCount headers_s : jstring) :
  (forall k, renders (own o k)) ->
  returns_json fetch (VObj ro) ->
  own ro (lit "data") = VArr rows ->
  (10 < List.length rows)%nat ->
  safe (Z.of_nat (List.length rows)) ->
  mapMi format_row (firstn 10 rows) = Normal lines ->
  ToString (own ro (lit "range")) = Normal range_s ->
  ToString (own ro (lit "rowCount")) = Normal rowCount ->
  headers_line (own ro (lit "headers")) = Normal headers_s ->
  CallTool config fetch (lit "read_sheet") (Some o) =
    text_result
      (lit "Sheet Data from " ++ range_s ++ lit " (" ++ rowCount
       ++ lit " rows):" ++ nl ++ nl ++ lit "Headers: " ++ headers_s
       ++ nl ++ nl ++ lit "Data:" ++ nl
       ++ join_strings nl lines ++ nl ++ lit "... and "
       ++ decimal (Z.of_nat (List.length rows) - 10) ++ lit " more rows")
  /\ List.length lines = 10%nat
  /\ (List.length rows = 11%nat ->
      decimal (Z.of_nat (List.length rows) - 10) = lit "1").
Proof.
  intros Hargs R Hdata Hlen Hsafe Hlines Hrange Hrows Hheaders.
  split; [|split].
  - exact (read_sheet_returns o ro _ _ _ _ Hargs R
             (dataText_more_than_ten ro rows lines Hdata Hlen Hsafe Hlines)
             Hrange Hrows Hheaders).
  - unfold mapMi in Hlines. rewrite (mapMi_from_length _ _ _ _ Hlines).
    rewrite length_firstn. lia.
  - intros ->. reflexivity.
Qed.

End ReadSheet.

(** ** The API gateway client *)

Lemma header_set_property (o : list (jstring * jstring)) (k v k' : jstring) :
  header (set_property o k v) k' =
  if jstring_eqb k k' then Some v else header o k'.
Proof.
  induction o as [|[k0 v0] o IH]; cbn [set_property header].
  - reflexivity.
  - destruct (jstring_eqb k0 k) eqn:E0.
    + apply jstring_eqb_eq in E0 as ->. cbn [header].
      destruct (jstring_eqb k k'); reflexivity.
    + cbn [header]. rewrite IH.
      destruct (jstring_eqb k0 k') eqn:E1; [|reflexivity].
      apply jstring_eqb_eq in E1 as ->.
      now rewrite (jstring_eqb_sym_false _ _ E0).
Qed.

Lemma header_app (l1 l2 : list (jstring * jstring)) (k : jstring) :
  header (l1 ++ l2) k =
  match header l1 k with
  | Some v => Some v
  | None => header l2 k
  end.
Proof.
  induction l1 as [|[k0 v0] l1 IH]; cbn [app header]; [reflexivity|].
  destruct (jstring_eqb k0 k); [reflexivity | exact IH].
Qed.

(** In [{ ...base, ...extra }] a name has the value [extra] gives it last,
    and otherwise the one of [base]. *)
Lemma header_spread (extra base : list (jstring * jstring)) (k : jstring) :
  header (spread base extra) k =
  match header (rev extra) k with
  | Some v => Some v
  | None => header base k
  end.
Proof.
  unfold spread. revert base.
  induction extra as [|[k0 v0] extra IH]; intros base; cbn [fold_left rev].
  - reflexivity.
  - rewrite IH, header_app. cbn [fst snd header].
    rewrite header_set_property.
    destruct (header (rev extra) k); [reflexivity|].
    destruct (jstring_eqb k0 k); reflexivity.
Qed.

Lemma header_rev_None (l : list (jstring * jstring)) (k : jstring) :
  header l k = None -> header (rev l) k = None.
Proof.
  induction l as [|[k0 v0] l IH]; cbn [header rev]; [easy|].
  destruct (jstring_eqb k0 k) eqn:E; [discriminate|].
  intros H. rewrite header_app, (IH H). cbn [header]. now rewrite E.
Qed.

Lemma bind_assoc {A B C} (c : completion A) (f : A -> completion B)
    (g : B -> completion C) :
  bind (bind c f) g = bind c (fun x => bind (f x) g).
Proof. destruct c; reflexivity. Qed.

Section Client.
Context {number : Type} {NUM : JSNumber number} {PLAT : Platform number}.
Variable config : Config.

Lemma sends_intro (name : jstring) (arguments : option (object number))
    (url : jstring) (init : RequestInit) :
  (exists K, forall fetch,
     switch config fetch name (arguments_value arguments)
     = bind (fetch url init) K) ->
  sends (CallTool config) name arguments url init.
Proof.
  intros (K & H).
  exists (fun response =>
            match K response with
            | Normal r => r
            | Throw e => error_result (lit "Error: " ++ message e)
            end).
  intros fetch. unfold CallTool. rewrite H.
  destruct (fetch url init); reflexivity.
Qed.


Lemma callSheeterAPI_not_ok fetch (endpoint : jstring) (options : RequestInit)
    (response : Response.t number) (body_text : jstring) :
  fetch (baseUrl config ++ endpoint) (request_init config options)
    = Normal response ->
  Response.ok response = false ->
  Response.text response = Normal body_text ->
  callSheeterAPI config fetch endpoint options
    = Throw (api_error response body_text).
Proof.
  intros F Hok Htext. unfold callSheeterAPI. rewrite F. cbn [bind].
  rewrite Hok, Htext. reflexivity.
Qed.

Lemma api_error_contains (response : Response.t number) (body_text : jstring) :
  safe (Response.status response) ->
  contains (decimal (Response.status response))
           (message (api_error response body_text))
  /\ contains (Response.statusText response)
              (message (api_error response body_text))
  /\ contains body_text (message (api_error response body_text)).
Proof.
  intros S. unfold api_error. cbn [message].
  rewrite (num_toString_exact S). repeat split.
  - apply contains_app_l, contains_here.
  - do 3 apply contains_app_l. apply contains_here.
  - do 5 apply contains_app_l. apply contains_refl.
Qed.


Lemma callSheeterAPI_not_found fetch (response : Response.t number)
    (endpoint : jstring) (options : RequestInit) :
  not_found fetch response ->
  callSheeterAPI config fetch endpoint options
    = Throw (api_error response (lit "Not Found")).
Proof.
  intros (F & S & T). apply callSheeterAPI_not_ok; [apply F | | exact T].
  unfold Response.ok. now rewrite S.
Qed.

(** On such a network every branch throws: either the API error, or an
    error raised before the call, which is the same on any network. *)
Lemma switch_not_found fetch (response : Response.t number)
    (name : jstring) (args : value number) :
  not_found fetch response ->
  exists e,
    switch config fetch name args = Throw e
    /\ (e = api_error response (lit "Not Found")
        \/ forall fetch', switch config fetch' name args = Throw e).
Proof.
  intros NF. unfold switch.
  repeat match goal with
         | |- context [if ?b then _ else _] => destruct b
         end;
    [ unfold create_spreadsheet | unfold read_sheet | unfold write_sheet
    | unfold append_to_sheet | unfold clear_range | unfold batch_get_ranges
    | unfold batch_update_ranges | unfold get_sheet_metadata
    | unfold delete_rows | unfold batch_update_spreadsheet | ];
    repeat match goal with
           | |- context [bind (callSheeterAPI config fetch ?ep ?o) _] =>
               rewrite (callSheeterAPI_not_found fetch response ep o NF);
               cbn [bind]
           | |- context [bind ?c _] =>
               lazymatch c with
               | callSheeterAPI _ _ _ _ => fail
               | _ => destruct c; cbn [bind]
               end
           end;
    eexists; (split; [reflexivity|]);
    first [ left; reflexivity | right; intros; reflexivity ].
Qed.

(** Every branch is of one of two shapes: it throws before any request, the
    same error on every network; or it is one [fetch], at a URL under the
    base URL and with the two default headers and no others, followed by
    steps that read the network no more.  No call site gives
    [callSheeterAPI] headers of its own. *)
Lemma switch_shape (name : jstring) (args : value number) :
  (exists e, forall fetch, switch config fetch name args = Throw e)
  \/ (exists endpoint method' body' K, forall fetch,
        switch config fetch name args =
        bind (fetch (baseUrl config ++ endpoint)
                {| method := method'; body := body';
                   headers := default_headers config |}) K).
Proof.
  unfold switch.
  repeat match goal with
         | |- context [if ?b then _ else _] => destruct b
         end;
    [ unfold create_spreadsheet | unfold read_sheet | unfold write_sheet
    | unfold append_to_sheet | unfold clear_range | unfold batch_get_ranges
    | unfold batch_update_ranges | unfold get_sheet_metadata
    | unfold delete_rows | unfold batch_update_spreadsheet | ];
    cbv zeta;
    repeat match goal with
           | |- context [bind ?c _] =>
               lazymatch c with
               | context [callSheeterAPI] => fail
               | _ => destruct c; cbn [bind]
               end
           end;
    first [ left; eexists; intros fetch; reflexivity
          | right; do 4 eexists; intros fetch;
            unfold callSheeterAPI, request_init, default_headers;
            cbn [method body headers spread fold_left no_options];
            rewrite !bind_assoc; reflexivity ].
Qed.

Lemma not_found_result_eq fetch (response : Response.t number) :
  not_found fetch response ->
  error_result (lit "Error: " ++ message (api_error response (lit "Not Found")))
  = not_found_result response.
Proof.
  intros (_ & S & _). unfold api_error, not_found_result. cbn [message].
  rewrite S, (num_toString_exact (a := 404)) by (unfold safe; lia).
  reflexivity.
Qed.

Lemma CallTool_not_found fetch (response : Response.t number)
    (name : jstring) (arguments : option (object number)) :
  not_found fetch response ->
  switch config fetch name (arguments_value arguments)
    = Throw (api_error response (lit "Not Found")) ->
  CallTool config fetch name arguments = not_found_result response.
Proof.
  intros NF H. unfold CallTool. rewrite H. exact (not_found_result_eq fetch response NF).
Qed.

(** C2.  A call of [callSheeterAPI] makes one request, to the base URL
    followed by the path, with the method and the body of its options.  The
    headers [Authorization: Bearer <apiKey>] and
    [Content-Type: application/json] are attached: they are the request's
    headers whenever the options give no headers, and each stays unless the
    options' own headers override that name.  A response that is not ok
    makes the call throw an error whose message has the status, the status
    text and the body text; an ok response makes it return what [json()]
    gives, whatever value that is.

    The dispatcher calls it with a method and a body at most: every
    invocation either fails before any request, or sends a request under
    the base URL with exactly the two headers.  On a network that answers
    404 with the body ["Not Found"], every invocation returns an error
    result; and each of the ten tools, given arguments that its branch can
    put in the request, returns
    ["Error: API call failed: 404 <statusText> - Not Found"] with [isError]
    set, a text that has the status and the body. *)
Theorem callSheeterAPI_contract fetch (endpoint : jstring)
    (options : RequestInit) :
  method (request_init config options) = method options
  /\ body (request_init config options) = body options
  /\ header (headers (request_init config options)) (lit "Authorization") =
       match header (rev (headers options)) (lit "Authorization") with
       | Some v => Some v
       | None => Some (lit "Bearer " ++ apiKey config)
       end
  /\ header (headers (request_init config options)) (lit "Content-Type") =
       match header (rev (headers options)) (lit "Content-Type") with
       | Some v => Some v
       | None => Some (lit "application/json")
       end
  /\ (header (headers options) (lit "Authorization") = None ->
      header (headers (request_init config options)) (lit "Authorization")
      = Some (lit "Bearer " ++ apiKey config))
  /\ (header (headers options) (lit "Content-Type") = None ->
      header (headers (request_init config options)) (lit "Content-Type")
      = Some (lit "application/json"))
  /\ (headers options = [] ->
      headers (request_init config options) =
      [(lit "Authorization", lit "Bearer " ++ apiKey config);
       (lit "Content-Type", lit "application/json")])
  /\ callSheeterAPI config fetch endpoint options =
       match fetch (baseUrl config ++ endpoint) (request_init config options)
       with
       | Throw e => Throw e
       | Normal response =>
           if Response.ok response then Response.json response
           else match Response.text response with
                | Normal body_text => Throw (api_error response body_text)
                | Throw e => Throw e
                end
       end
  /\ (forall response body_text,
        fetch (baseUrl config ++ endpoint) (request_init config options)
          = Normal response ->
        Response.ok response = false ->
        Response.text response = Normal body_text ->
        safe (Response.status response) ->
        exists m,
          callSheeterAPI config fetch endpoint options = Throw (mkError m)
          /\ contains (decimal (Response.status response)) m
          /\ contains (Response.statusText response) m
          /\ contains body_text m)
  /\ (forall response,
        fetch (baseUrl config ++ endpoint) (request_init config options)
          = Normal response ->
        Response.ok response = true ->
        callSheeterAPI config fetch endpoint options = Response.json response)
  /\ (forall name arguments,
        (exists t, forall fetch',
           CallTool config fetch' name arguments = error_result t)
        \/ (exists endpoint' method' body',
              sends (CallTool config) name arguments
                (baseUrl config ++ endpoint')
                {| method := method'; body := body';
                   headers := default_headers config |}))
  /\ (forall response name arguments,
        not_found fetch response ->
        exists t, CallTool config fetch name arguments = error_result t)
  /\ (forall response : Response.t number,
        isError (not_found_result response) = Some true
        /\ (exists t,
              content (not_found_result response)
                = [{| type := lit "text"; text := t |}]
              /\ contains (lit "404") t /\ contains (lit "Not Found") t))
  /\ (forall response (o : object number),
        not_found fetch response ->
        CallTool config fetch (lit "create_spreadsheet") (Some o)
          = not_found_result response
        /\ (renders (own o (lit "sheetId")) ->
            (forall tool,
               In tool [lit "write_sheet"; lit "append_to_sheet";
                        lit "batch_get_ranges"; lit "batch_update_ranges";
                        lit "get_sheet_metadata";
                        lit "batch_update_spreadsheet"] ->
               CallTool config fetch tool (Some o)
                 = not_found_result response)
            /\ (renders (default_to (VStr (lit "A:Z")) (own o (lit "range"))) ->
                renders (default_to (VStr (lit "ROWS"))
                           (own o (lit "majorDimension"))) ->
                renders (default_to (VStr (lit "FORMATTED_VALUE"))
                           (own o (lit "valueRenderOption"))) ->
                CallTool config fetch (lit "read_sheet") (Some o)
                  = not_found_result response)
            /\ (renders (own o (lit "range")) ->
                CallTool config fetch (lit "clear_range") (Some o)
                  = not_found_result response)
            /\ ((exists s, call_toString (lit "startIndex")
                             (own o (lit "startIndex")) = Normal s) ->
                (exists s, call_toString (lit "endIndex")
                             (own o (lit "endIndex")) = Normal s) ->
                (exists s, call_toString (lit "sheetTabId")
                             (default_to (VNum (num_of_Z 0))
                                (own o (lit "sheetTabId"))) = Normal s) ->
                CallTool config fetch (lit "delete_rows") (Some o)
                  = not_found_result response))).
Proof.
  repeat match goal with |- _ /\ _ => split end.
  - reflexivity.
  - reflexivity.
  - cbn [request_init headers]. rewrite header_spread. reflexivity.
  - cbn [request_init headers]. rewrite header_spread. reflexivity.
  - intros H. cbn [request_init headers].
    now rewrite header_spread, (header_rev_None _ _ H).
  - intros H. cbn [request_init headers].
    now rewrite header_spread, (header_rev_None _ _ H).
  - intros H. cbn [request_init headers]. now rewrite H.
  - unfold callSheeterAPI.
    destruct (fetch (baseUrl config ++ endpoint) (request_init config options))
      as [response|e]; cbn [bind]; [|reflexivity].
    destruct (Response.ok response); cbn [negb]; [reflexivity|].
    destruct (Response.text response); reflexivity.
  - intros response body_text F Hok Htext S.
    exists (message (api_error response body_text)). split.
    + now apply callSheeterAPI_not_ok.
    + now apply api_error_contains.
  - intros response F Hok. unfold callSheeterAPI. rewrite F. cbn [bind].
    now rewrite Hok.
  - intros name arguments.
    destruct (switch_shape name (arguments_value arguments))
      as [(e & H) | (endpoint' & method' & body' & K & H)].
    + left. exists (lit "Error: " ++ message e). intros fetch'.
      unfold CallTool. now rewrite H.
    + right. exists endpoint', method', body'. apply sends_intro.
      exists K. exact H.
  - intros response name arguments NF. unfold CallTool.
    destruct (switch_not_found fetch response name
                (arguments_value arguments) NF) as (e & -> & _).
    eexists. reflexivity.
  - intros response. split; [reflexivity|].
    eexists. split; [reflexivity|]. split.
    + exists (lit "Error: API call failed: "),
             (lit " " ++ Response.statusText response ++ lit " - Not Found").
      reflexivity.
    + exists (lit "Error: API call failed: 404 "
              ++ Response.statusText response ++ lit " - "), [].
      rewrite <- !app_assoc. reflexivity.
  - intros response o NF.
    assert (call : forall ep opts,
               callSheeterAPI config fetch ep opts
               = Throw (api_error response (lit "Not Found")))
      by (intros; now apply callSheeterAPI_not_found).
    split; [|intros (s & Hs); repeat split].
    + apply CallTool_not_found; [exact NF|].
      change (switch config fetch (lit "create_spreadsheet")
                (arguments_value (Some o)))
        with (create_spreadsheet config fetch (VObj o)).
      unfold create_spreadsheet. cbn [destructure bind].
      now rewrite call.
    + intros tool H. apply CallTool_not_found; [exact NF|].
      cbn [In] in H.
      repeat (destruct H as [<- | H];
              [ first
                  [ change (write_sheet config fetch (VObj o) = Throw (api_error response (lit "Not Found"))); unfold write_sheet
                  | change (append_to_sheet config fetch (VObj o) = Throw (api_error response (lit "Not Found"))); unfold append_to_sheet
                  | change (batch_get_ranges config fetch (VObj o) = Throw (api_error response (lit "Not Found"))); unfold batch_get_ranges
                  | change (batch_update_ranges config fetch (VObj o) = Throw (api_error response (lit "Not Found"))); unfold batch_update_ranges
                  | change (get_sheet_metadata config fetch (VObj o) = Throw (api_error response (lit "Not Found"))); unfold get_sheet_metadata
                  | change (batch_update_spreadsheet config fetch (VObj o) = Throw (api_error response (lit "Not Found"))); unfold batch_update_spreadsheet ];
                cbn [destructure bind]; rewrite Hs; cbn [bind];
                now rewrite call
              |]).
      destruct H.
    + intros (r & Hr) (d & Hd) (v & Hv).
      apply CallTool_not_found; [exact NF|].
      change (switch config fetch (lit "read_sheet") (arguments_value (Some o)))
        with (read_sheet config fetch (VObj o)).
      unfold read_sheet, URLSearchParams.
      cbn [destructure bind mapM fst snd]. rewrite Hr, Hd, Hv, Hs.
      cbn [bind]. now rewrite call.
    + intros (r & Hr). apply CallTool_not_found; [exact NF|].
      change (switch config fetch (lit "clear_range")
                (arguments_value (Some o)))
        with (clear_range config fetch (VObj o)).
      unfold clear_range, URLSearchParams.
      cbn [destructure bind mapM fst snd]. rewrite Hr, Hs. cbn [bind].
      now rewrite call.
    + intros (a & Ha) (b & Hb) (c & Hc).
      apply CallTool_not_found; [exact NF|].
      change (switch config fetch (lit "delete_rows")
                (arguments_value (Some o)))
        with (delete_rows config fetch (VObj o)).
      unfold delete_rows, URLSearchParams.
      cbn [destructure bind]. cbv zeta. rewrite Ha, Hb, Hc.
      cbn [bind mapM fst snd ToString]. rewrite Hs. cbn [bind].
      now rewrite call.
Qed.

End Client.

(** ** What each branch shows of the response *)

(** [contains x (a ++ b ++ x ++ c)] *)
Ltac find_contains :=
  solve [ repeat first [ apply contains_refl | apply contains_here
                       | assumption | apply contains_app_l ] ].

Section Formatting.
Context {number : Type} {NUM : JSNumber number} {PLAT : Platform number}.
Variable config : Config.
Variable fetch : jstring -> RequestInit -> completion (Response.t number).




Lemma CallTool_text (name : jstring) (arguments : option (object number))
    (t : jstring) :
  CallTool config fetch name arguments = text_result t ->
  switch config fetch name (arguments_value arguments)
    = Normal (text_result t).
Proof.
  unfold CallTool.
  destruct (switch config fetch name (arguments_value arguments)) as [r|e].
  - now intros ->.
  - discriminate.
Qed.

Lemma text_result_inj (a b : jstring) :
  Normal (text_result a) = Normal (text_result b) -> a = b.
Proof. intros H. now injection H. Qed.

Lemma interp_field (v : value number) (k s t : jstring) :
  interp (Get v k) = Normal s -> contains s t ->
  shows_field v [k] t.
Proof.
  unfold interp. intros H C. apply bind_Normal in H as (x & E & H).
  exists x. split.
  - cbn [Get_path]. now rewrite E.
  - now exists s.
Qed.

Lemma interp_field2 (v : value number) (k1 k2 s t : jstring) :
  interp (x <- Get v k1 ;; Get x k2) = Normal s ->
  contains s t ->
  shows_field v [k1; k2] t.
Proof.
  unfold interp. intros H C. apply bind_Normal in H as (x & E & H).
  apply bind_Normal in E as (y & E1 & E2).
  exists x. split.
  - cbn [Get_path]. rewrite E1. cbn [bind]. now rewrite E2.
  - now exists s.
Qed.

Lemma create_spreadsheet_shows (result : value number)
    (arguments : option (object number)) (t : jstring) :
  returns_json fetch result ->
  CallTool config fetch (lit "create_spreadsheet") arguments = text_result t ->
  shows_field result [lit "spreadsheetId"] t
  /\ shows_field result [lit "spreadsheetUrl"] t.
Proof.
  intros R H. apply CallTool_text in H.
  change (switch config fetch (lit "create_spreadsheet")
            (arguments_value arguments))
    with (create_spreadsheet config fetch (arguments_value arguments)) in H.
  unfold create_spreadsheet in H. invert_binds H.
  rewrite (callSheeterAPI_returns config fetch result _ _ R) in E0.
  injection E0 as <-. apply text_result_inj in H as <-.
  split; eapply interp_field; try eassumption; find_contains.
Qed.

Lemma write_sheet_shows (result : value number)
    (arguments : option (object number)) (t : jstring) :
  returns_json fetch result ->
  CallTool config fetch (lit "write_sheet") arguments = text_result t ->
  shows_field result [lit "updatedCells"] t
  /\ shows_field result [lit "updatedRange"] t
  /\ shows_field result [lit "updatedRows"] t
  /\ shows_field result [lit "updatedColumns"] t.
Proof.
  intros R H. apply CallTool_text in H.
  change (switch config fetch (lit "write_sheet") (arguments_value arguments))
    with (write_sheet config fetch (arguments_value arguments)) in H.
  unfold write_sheet in H. invert_binds H.
  rewrite (callSheeterAPI_returns config fetch result _ _ R) in E4.
  injection E4 as <-. apply text_result_inj in H as <-.
  repeat split; eapply interp_field; try eassumption; find_contains.
Qed.

Lemma append_to_sheet_shows (result : value number)
    (arguments : option (object number)) (t : jstring) :
  returns_json fetch result ->
  CallTool config fetch (lit "append_to_sheet") arguments = text_result t ->
  shows_field result [lit "updates"; lit "updatedCells"] t
  /\ shows_field result [lit "updates"; lit "updatedRange"] t.
Proof.
  intros R H. apply CallTool_text in H.
  change (switch config fetch (lit "append_to_sheet")
            (arguments_value arguments))
    with (append_to_sheet config fetch (arguments_value arguments)) in H.
  unfold append_to_sheet in H. invert_binds H.
  rewrite (callSheeterAPI_returns config fetch result _ _ R) in E3.
  injection E3 as <-. apply text_result_inj in H as <-.
  split; eapply interp_field2; try eassumption; find_contains.
Qed.

Lemma clear_range_shows (result : value number)
    (arguments : option (object number)) (t : jstring) :
  returns_json fetch result ->
  CallTool config fetch (lit "clear_range") arguments = text_result t ->
  shows_field result [lit "clearedRange"] t.
Proof.
  intros R H. apply CallTool_text in H.
  change (switch config fetch (lit "clear_range") (arguments_value arguments))
    with (clear_range config fetch (arguments_value arguments)) in H.
  unfold clear_range in H. invert_binds H.
  rewrite (callSheeterAPI_returns config fetch result _ _ R) in E3.
  injection E3 as <-. apply text_result_inj in H as <-.
  eapply interp_field; try eassumption; find_contains.
Qed.

Lemma batch_update_ranges_shows (result : value number)
    (arguments : option (object number)) (t : jstring) :
  returns_json fetch result ->
  CallTool config fetch (lit "batch_update_ranges") arguments
    = text_result t ->
  shows_field result [lit "totalUpdatedCells"] t.
Proof.
  intros R H. apply CallTool_text in H.
  change (switch config fetch (lit "batch_update_ranges")
            (arguments_value arguments))
    with (batch_update_ranges config fetch (arguments_value arguments)) in H.
  unfold batch_update_ranges in H. invert_binds H.
  rewrite (callSheeterAPI_returns config fetch result _ _ R) in E3.
  injection E3 as <-. apply text_result_inj in H as <-.
  eapply interp_field; try eassumption; find_contains.
Qed.

Lemma Normal_inj {A} (a b : A) : Normal a = Normal b -> a = b.
Proof. intros H. now injection H. Qed.

(** [s || fallback] on strings, shown. *)
Lemma js_or_string (s fallback a : jstring) :
  ToString (js_or (VStr s) (VStr (number := number) fallback)) = Normal a ->
  (s = [] /\ a = fallback) \/ (s <> [] /\ a = s).
Proof.
  unfold js_or. cbn [ToBoolean].
  destruct (jstring_eqb s []) eqn:E; cbn [negb ToString]; intros H;
    apply Normal_inj in H as <-.
  - left. apply jstring_eqb_eq in E. now split.
  - right. split; [|reflexivity]. intros ->. discriminate.
Qed.

(** What [arr?.map(f).join("\n") || fallback] shows of an array: the line
    of each element. *)
Lemma map_join_shows (f : value number -> nat -> completion jstring)
    (callee fallback a : jstring) (l : list (value number)) :
  (joined <- map_join (VArr l) f callee ;;
   ToString (js_or joined (VStr fallback))) = Normal a ->
  forall x, In x l ->
  exists i line, f x i = Normal line /\ (line <> [] -> contains line a).
Proof.
  intros H x Hin. cbn [map_join] in H.
  apply bind_Normal in H as (joined & E & H).
  apply bind_Normal in E as (lines & E0 & E).
  apply Normal_inj in E as <-. unfold mapMi in E0.
  destruct (mapMi_from_In _ _ _ _ E0 x Hin) as (i & line & Hf & Hline).
  exists i, line. split; [exact Hf|]. intros Hne.
  destruct (js_or_string _ _ _ H) as [(Hnil & _) | (_ & ->)].
  - exfalso. apply Hne. exact (join_strings_nil _ _ Hnil line Hline).
  - now apply contains_join.
Qed.

Lemma format_sheet_shows (sheet : value number) (i : nat) (line : jstring) :
  format_sheet sheet i = Normal line ->
  line <> []
  /\ shows_field sheet [lit "title"] line
  /\ shows_field sheet [lit "sheetId"] line
  /\ shows_field sheet [lit "gridProperties"; lit "rowCount"] line
  /\ shows_field sheet [lit "gridProperties"; lit "columnCount"] line.
Proof.
  unfold format_sheet. intros H. invert_binds H. apply Normal_inj in H as <-.
  split; [discriminate|].
  repeat split;
    first [ eapply interp_field; [eassumption | find_contains]
          | eapply interp_field2; [eassumption | find_contains] ].
Qed.

Lemma shows_field_in (v : value number) (path : list jstring)
    (line t : jstring) :
  shows_field v path line -> contains line t -> shows_field v path t.
Proof.
  intros (x & Hx & s & Hs & C) Ct. exists x. split; [exact Hx|].
  exists s. split; [exact Hs|]. exact (contains_trans _ _ _ C Ct).
Qed.

Lemma get_sheet_metadata_shows (result : value number)
    (arguments : option (object number)) (t : jstring) :
  returns_json fetch result ->
  CallTool config fetch (lit "get_sheet_metadata") arguments = text_result t ->
  shows_field result [lit "properties"; lit "title"] t
  /\ shows_field result [lit "spreadsheetId"] t
  /\ shows_field result [lit "properties"; lit "locale"] t
  /\ shows_field result [lit "properties"; lit "timeZone"] t
  /\ (forall sheets sheet,
        Get result (lit "sheets") = Normal (VArr sheets) ->
        In sheet sheets ->
        shows_field sheet [lit "title"] t
        /\ shows_field sheet [lit "sheetId"] t
        /\ shows_field sheet [lit "gridProperties"; lit "rowCount"] t
        /\ shows_field sheet [lit "gridProperties"; lit "columnCount"] t).
Proof.
  intros R H. apply CallTool_text in H.
  change (switch config fetch (lit "get_sheet_metadata")
            (arguments_value arguments))
    with (get_sheet_metadata config fetch (arguments_value arguments)) in H.
  unfold get_sheet_metadata in H. invert_binds H.
  rewrite (callSheeterAPI_returns config fetch result _ _ R) in E1.
  apply Normal_inj in E1 as <-. apply text_result_inj in H as <-.
  split; [eapply interp_field2; [eassumption | find_contains]|].
  split; [eapply interp_field; [eassumption | find_contains]|].
  split; [eapply interp_field2; [eassumption | find_contains]|].
  split; [eapply interp_field2; [eassumption | find_contains]|].
  intros sheets sheet Hsheets Hin. unfold sheetsInfo in E2.
  rewrite Hsheets in E2. cbn [bind] in E2.
  destruct (map_join_shows _ _ _ _ _ E2 sheet Hin) as (i & line & Hf & Hline).
  destruct (format_sheet_shows _ _ _ Hf) as (Hne & F1 & F2 & F3 & F4).
  repeat split;
    (eapply shows_field_in;
     [ eassumption
     | eapply contains_trans; [exact (Hline Hne) | find_contains] ]).
Qed.

Lemma shows_in (v : value number) (line t : jstring) :
  shows v line -> contains line t -> shows v t.
Proof.
  intros (s & Hs & C) Ct. exists s. split; [exact Hs|].
  exact (contains_trans _ _ _ C Ct).
Qed.


Lemma format_range_shows (vr : value number) (i : nat) (line : jstring) :
  format_range vr i = Normal line ->
  line <> []
  /\ shows_field vr [lit "range"] line
  /\ shows_row_count vr line.
Proof.
  unfold format_range. intros H.
  apply bind_Normal in H as (range_s & Erange & H).
  apply bind_Normal in H as (len & Elen & H).
  apply bind_Normal in H as (rows & Erows & H).
  apply Normal_inj in H as <-.
  split; [discriminate|]. split.
  - eapply interp_field; [eassumption | find_contains].
  - exists len. split; [exact Elen|]. exists rows. split; [exact Erows|].
    find_contains.
Qed.

Lemma batch_get_ranges_shows (result : value number)
    (arguments : option (object number)) (t : jstring) :
  returns_json fetch result ->
  CallTool config fetch (lit "batch_get_ranges") arguments = text_result t ->
  forall valueRanges vr,
    Get result (lit "valueRanges") = Normal (VArr valueRanges) ->
    In vr valueRanges ->
    shows_field vr [lit "range"] t /\ shows_row_count vr t.
Proof.
  intros R H. apply CallTool_text in H.
  change (switch config fetch (lit "batch_get_ranges")
            (arguments_value arguments))
    with (batch_get_ranges config fetch (arguments_value arguments)) in H.
  unfold batch_get_ranges in H.
  apply bind_Normal in H as (sheetId & _ & H).
  apply bind_Normal in H as (ranges & _ & H).
  apply bind_Normal in H as (majorDimension & _ & H).
  apply bind_Normal in H as (valueRenderOption & _ & H).
  apply bind_Normal in H as (sheetId_s & _ & H).
  apply bind_Normal in H as (result' & Ecall & H).
  apply bind_Normal in H as (results & Eresults & H).
  apply bind_Normal in H as (count & _ & H).
  rewrite (callSheeterAPI_returns config fetch result _ _ R) in Ecall.
  apply Normal_inj in Ecall as <-. apply text_result_inj in H as <-.
  intros valueRanges vr Hvrs Hin. unfold rangeResults in Eresults.
  rewrite Hvrs in Eresults. cbn [bind] in Eresults.
  destruct (map_join_shows _ _ _ _ _ Eresults vr Hin)
    as (i & line & Hf & Hline).
  destruct (format_range_shows _ _ _ Hf) as (Hne & F1 & (len & Hlen & F2)).
  assert (C : contains line
                (lit "Batch get completed for " ++ count ++ lit " ranges:"
                 ++ nl ++ nl ++ results)).
  { eapply contains_trans; [exact (Hline Hne) | find_contains]. }
  split.
  - exact (shows_field_in _ _ _ _ F1 C).
  - exists len. split; [exact Hlen|]. exact (shows_in _ _ _ F2 C).
Qed.


Lemma format_row_shows (row : value number) (i : nat) (line : jstring) :
  format_row row i = Normal line -> shows_row row line.
Proof.
  unfold format_row. intros H.
  apply bind_Normal in H as (entries & Eentries & H).
  apply bind_Normal in H as (cells & Ecells & H).
  apply Normal_inj in H as <-.
  exists entries. split; [exact Eentries|]. intros k v Hin.
  destruct (mapM_In _ _ _ Ecells (k, v) Hin) as (cell & Hcell & Hcells).
  unfold format_entry in Hcell. cbn [fst snd] in Hcell.
  apply bind_Normal in Hcell as (value_s & Evalue & Hcell).
  apply Normal_inj in Hcell as <-.
  assert (C : contains (k ++ lit ": " ++ value_s)
                (lit "Row " ++ index_plus_one i ++ lit ": "
                 ++ join_strings (lit ", ") cells)).
  { do 3 apply contains_app_l. now apply contains_join. }
  split.
  - eapply contains_trans; [apply contains_here | exact C].
  - exists value_s. split; [exact Evalue|].
    eapply contains_trans; [|exact C]. find_contains.
Qed.

Lemma dataText_shows (result : value number) (rows : list (value number))
    (data_s : jstring) :
  Get result (lit "data") = Normal (VArr rows) ->
  safe (Z.of_nat (List.length rows)) ->
  dataText result = Normal data_s ->
  forall row, In row (firstn 10 rows) -> shows_row row data_s.
Proof.
  intros Hdata Hsafe H row Hin. unfold dataText in H.
  rewrite Hdata in H.
  cbn [bind Get_length_opt nullish Get_length js_gt ToNumber length_value] in H.
  assert (S0 : safe 0) by (unfold safe; lia).
  rewrite (num_lt_exact S0 Hsafe) in H.
  assert (Hpos : (0 <? Z.of_nat (List.length rows)) = true).
  { apply Z.ltb_lt. destruct rows; [destruct Hin | cbn; lia]. }
  rewrite Hpos in H.
  apply bind_Normal in H as (lines & Elines & H).
  apply bind_Normal in H as (suffix & _ & H).
  apply Normal_inj in H as <-. unfold mapMi in Elines.
  destruct (mapMi_from_In _ _ _ _ Elines row Hin) as (i & line & Hf & Hline).
  destruct (format_row_shows _ _ _ Hf) as (entries & Eentries & Hshown).
  exists entries. split; [exact Eentries|]. intros k v Hkv.
  assert (C : contains line (join_strings nl lines ++ suffix))
    by now apply contains_app_r, contains_join.
  destruct (Hshown k v Hkv) as (Ck & Cv). split.
  - exact (contains_trans _ _ _ Ck C).
  - exact (shows_in _ _ _ Cv C).
Qed.

(** What the headers line shows: each header, as [join] converts it. *)
Lemma headers_shows (headers : list (value number)) (headers_s : jstring) :
  interp (joined <- headers_joined (VArr headers) ;;
          Normal (js_or joined (VStr (lit "No headers")))) = Normal headers_s ->
  forall h, In h headers ->
  exists s, join_element h = Normal s /\ contains s headers_s.
Proof.
  unfold interp. cbn [headers_joined]. unfold Array_join. intros H h Hin.
  apply bind_Normal in H as (shown & E & H).
  apply bind_Normal in E as (joined & E & Eshown).
  apply bind_Normal in E as (s & E & Ejoined).
  apply bind_Normal in E as (strs & Estrs & E).
  apply Normal_inj in E as <-. apply Normal_inj in Ejoined as <-.
  apply Normal_inj in Eshown as <-.
  destruct (mapM_In _ _ _ Estrs h Hin) as (x & Hx & Hstrs).
  exists x. split; [exact Hx|].
  destruct (js_or_string _ _ _ H) as [(Hnil & _) | (_ & ->)].
  - rewrite (join_strings_nil _ _ Hnil x Hstrs). apply contains_nil.
  - now apply contains_join.
Qed.

Lemma read_sheet_shows (result : value number)
    (arguments : option (object number)) (t : jstring) :
  returns_json fetch result ->
  CallTool config fetch (lit "read_sheet") arguments = text_result t ->
  shows_field result [lit "range"] t
  /\ shows_field result [lit "rowCount"] t
  /\ (forall headers h,
        Get result (lit "headers") = Normal (VArr headers) ->
        In h headers ->
        exists s, join_element h = Normal s /\ contains s t)
  /\ (forall rows row,
        Get result (lit "data") = Normal (VArr rows) ->
        safe (Z.of_nat (List.length rows)) ->
        In row (firstn 10 rows) ->
        shows_row row t).
Proof.
  intros R H. apply CallTool_text in H.
  change (switch config fetch (lit "read_sheet") (arguments_value arguments))
    with (read_sheet config fetch (arguments_value arguments)) in H.
  unfold read_sheet in H.
  apply bind_Normal in H as (sheetId & _ & H).
  apply bind_Normal in H as (range & _ & H).
  apply bind_Normal in H as (majorDimension & _ & H).
  apply bind_Normal in H as (valueRenderOption & _ & H).
  apply bind_Normal in H as (queryParams & _ & H).
  apply bind_Normal in H as (sheetId_s & _ & H).
  apply bind_Normal in H as (result' & Ecall & H).
  apply bind_Normal in H as (data_s & Edata & H).
  apply bind_Normal in H as (range_s & Erange & H).
  apply bind_Normal in H as (rowCount & Erows & H).
  apply bind_Normal in H as (headers_s & Eheaders & H).
  rewrite (callSheeterAPI_returns config fetch result _ _ R) in Ecall.
  apply Normal_inj in Ecall as <-. apply text_result_inj in H as <-.
  split; [eapply interp_field; [eassumption | find_contains]|].
  split; [eapply interp_field; [eassumption | find_contains]|].
  split.
  - intros headers h Hheaders Hin. rewrite Hheaders in Eheaders.
    cbn [bind] in Eheaders.
    destruct (headers_shows _ _ Eheaders h Hin) as (s & Hs & C).
    exists s. split; [exact Hs|].
    eapply contains_trans; [exact C | find_contains].
  - intros rows row Hdata Hsafe Hin.
    destruct (dataText_shows _ _ _ Hdata Hsafe Edata row Hin)
      as (entries & Eentries & Hshown).
    exists entries. split; [exact Eentries|]. intros k v Hkv.
    destruct (Hshown k v Hkv) as (Ck & Cv).
    split.
    + eapply contains_trans; [exact Ck | find_contains].
    + eapply shows_in; [exact Cv | find_contains].
Qed.

(** C3, as the code has it.  Against a mocked client that returns the
    fixture [result], the text of a successful invocation shows the fields
    of the fixture that the branch's template reads, and these are:
    [create_spreadsheet], the spreadsheet's id and URL; [read_sheet], the
    range, the row count, each header, and each key and value of the first
    ten rows; [write_sheet], the four update counts and range;
    [append_to_sheet], the updated cells and range; [clear_range], the
    cleared range; [batch_get_ranges], each range's name and row count;
    [batch_update_ranges], the total of updated cells;
    [get_sheet_metadata], the title, id, locale and time zone, and each
    sheet's title, id and dimensions. *)
Theorem branches_show_the_fields_they_read (result : value number)
    (arguments : option (object number)) (t : jstring) :
  returns_json fetch result ->
  (CallTool config fetch (lit "create_spreadsheet") arguments = text_result t ->
   shows_field result [lit "spreadsheetId"] t
   /\ shows_field result [lit "spreadsheetUrl"] t)
  /\ (CallTool config fetch (lit "read_sheet") arguments = text_result t ->
      shows_field result [lit "range"] t
      /\ shows_field result [lit "rowCount"] t
      /\ (forall headers h,
            Get result (lit "headers") = Normal (VArr headers) ->
            In h headers ->
            exists s, join_element h = Normal s /\ contains s t)
      /\ (forall rows row,
            Get result (lit "data") = Normal (VArr rows) ->
            safe (Z.of_nat (List.length rows)) ->
            In row (firstn 10 rows) ->
            shows_row row t))
  /\ (CallTool config fetch (lit "write_sheet") arguments = text_result t ->
      shows_field result [lit "updatedCells"] t
      /\ shows_field result [lit "updatedRange"] t
      /\ shows_field result [lit "updatedRows"] t
      /\ shows_field result [lit "updatedColumns"] t)
  /\ (CallTool config fetch (lit "append_to_sheet") arguments = text_result t ->
      shows_field result [lit "updates"; lit "updatedCells"] t
      /\ shows_field result [lit "updates"; lit "updatedRange"] t)
  /\ (CallTool config fetch (lit "clear_range") arguments = text_result t ->
      shows_field result [lit "clearedRange"] t)
  /\ (CallTool config fetch (lit "batch_get_ranges") arguments
        = text_result t ->
      forall valueRanges vr,
        Get result (lit "valueRanges") = Normal (VArr valueRanges) ->
        In vr valueRanges ->
        shows_field vr [lit "range"] t /\ shows_row_count vr t)
  /\ (CallTool config fetch (lit "batch_update_ranges") arguments
        = text_result t ->
      shows_field result [lit "totalUpdatedCells"] t)
  /\ (CallTool config fetch (lit "get_sheet_metadata") arguments
        = text_result t ->
      shows_field result [lit "properties"; lit "title"] t
      /\ shows_field result [lit "spreadsheetId"] t
      /\ shows_field result [lit "properties"; lit "locale"] t
      /\ shows_field result [lit "properties"; lit "timeZone"] t
      /\ (forall sheets sheet,
            Get result (lit "sheets") = Normal (VArr sheets) ->
            In sheet sheets ->
            shows_field sheet [lit "title"] t
            /\ shows_field sheet [lit "sheetId"] t
            /\ shows_field sheet [lit "gridProperties"; lit "rowCount"] t
            /\ shows_field sheet [lit "gridProperties"; lit "columnCount"] t)).
Proof.
  intros R.
  split; [now apply create_spreadsheet_shows|].
  split; [now apply read_sheet_shows|].
  split; [now apply write_sheet_shows|].
  split; [now apply append_to_sheet_shows|].
  split; [now apply clear_range_shows|].
  split; [now apply batch_get_ranges_shows|].
  split; [now apply batch_update_ranges_shows|].
  now apply get_sheet_metadata_shows.
Qed.

End Formatting.

(** ** The properties on the reference runtime *)

Section Examples.
Import Reference.
#[local] Existing Instance numbers.
#[local] Existing Instance platform.

Lemma mock_returns_json (result : value number) :
  returns_json (mock (fixture result)) result.
Proof. intros url init. exists (fixture result). repeat split. Qed.

Lemma mock_succeeds (result : value number) :
  succeeds (mock (fixture result)).
Proof. intros url init. exists (fixture result), result. repeat split. Qed.

Lemma mock_not_found : not_found (mock not_found_response) not_found_response.
Proof. repeat split. Qed.

Lemma sheet_arguments_render : forall k, renders (own sheet_arguments k).
Proof.
  intros k. unfold sheet_arguments. cbn [own].
  destruct (jstring_eqb (lit "sheetId") k); eexists; reflexivity.
Qed.

Lemma safe_small (z : Z) : 0 <= z <= 1000 -> safe z.
Proof. unfold safe. lia. Qed.

(** The conversions on values as [JSON.parse] gives them. *)
Example array_to_string :
  ToString (VArr [VNull; VStr (lit "a"); VArr [VNum (Some 1); VNum (Some 2)]])
  = Normal (lit ",a,1,2").
Proof. reflexivity. Qed.

Example object_with_own_toString_has_no_string :
  ToString (VObj [(lit "toString", VNum (Some 1))])
  = Throw (mkError (lit "Cannot convert object to primitive value")).
Proof. reflexivity. Qed.

Example entries_of_a_string :
  Object_entries (VStr (lit "ab"))
  = Normal [(lit "0", VStr (lit "a")); (lit "1", VStr (lit "b"))].
Proof. reflexivity. Qed.

Example ten_rows_have_no_marker :
  dataText (VObj (sheet_fixture 10)) = Normal (join_strings nl ten_lines).
Proof. reflexivity. Qed.

(** The four kinds of error of one invocation, each caught. *)
Example missing_arguments_are_caught :
  CallTool config (mock (fixture created_fixture))
    (lit "create_spreadsheet") None
  = error_result
      (lit "Error: Cannot destructure property 'title' of 'args' as it is undefined.").
Proof. reflexivity. Qed.

Example api_failure_is_caught :
  CallTool config (mock not_found_response)
    (lit "get_sheet_metadata") (Some sheet_arguments)
  = error_result not_found_text.
Proof. reflexivity. Qed.

Example formatting_failure_is_caught :
  CallTool config (mock (fixture VNull)) (lit "read_sheet")
    (Some sheet_arguments)
  = error_result
      (lit "Error: Cannot read properties of null (reading 'data')").
Proof. reflexivity. Qed.

Example unknown_tool_is_caught :
  CallTool config (mock (fixture VNull)) (lit "delete_sheet")
    (Some sheet_arguments)
  = error_result (lit "Error: Unknown tool: delete_sheet").
Proof. reflexivity. Qed.

(** The headers of the options are spread after the two defaults: an
    override of [Authorization] takes the place of the bearer credential, and
    any other header is added to the two.  The dispatcher gives none. *)
Example header_overrides :
  headers
    (request_init config
       {| method := None; body := None;
          headers := [(lit "Authorization", lit "Basic abc");
                      (lit "Accept", lit "text/plain")] |})
  = [(lit "Authorization", lit "Basic abc");
     (lit "Content-Type", lit "application/json");
     (lit "Accept", lit "text/plain")].
Proof. reflexivity. Qed.

Lemma callSheeterAPI_contract_witness :
  not_found (mock not_found_response) not_found_response
  /\ renders (own delete_rows_arguments (lit "sheetId"))
  /\ CallTool config (mock not_found_response) (lit "create_spreadsheet")
       (Some create_arguments) = error_result not_found_text
  /\ CallTool config (mock not_found_response) (lit "get_sheet_metadata")
       (Some delete_rows_arguments) = error_result not_found_text
  /\ CallTool config (mock not_found_response) (lit "read_sheet")
       (Some delete_rows_arguments) = error_result not_found_text
  /\ CallTool config (mock not_found_response) (lit "clear_range")
       (Some delete_rows_arguments) = error_result not_found_text
  /\ CallTool config (mock not_found_response) (lit "delete_rows")
       (Some delete_rows_arguments) = error_result not_found_text.
Proof.
  destruct (callSheeterAPI_contract (NUM := numbers) (PLAT := platform)
              config (mock not_found_response) [] no_options)
    as (_ & _ & _ & _ & _ & _ & _ & _ & _ & _ & _ & _ & _ & H).
  assert (sheetId : renders (own delete_rows_arguments (lit "sheetId")))
    by (eexists; reflexivity).
  split; [exact mock_not_found|]. split; [exact sheetId|]. split.
  - exact (proj1 (H not_found_response create_arguments mock_not_found)).
  - destruct (H not_found_response delete_rows_arguments mock_not_found)
      as (_ & H').
    destruct (H' sheetId) as (six & read & clear & delete).
    split; [apply six; cbn [In]; tauto|].
    split; [apply read; eexists; reflexivity|].
    split; [apply clear; eexists; reflexivity|].
    apply delete; eexists; reflexivity.
Defined.

(** C3 fails as stated: the fixture's [message] and [success], the rows
    after the tenth, and the whole response to [delete_rows] are values of
    the fixture that the text does not have. *)
Lemma formatting_counterexample :
  CallTool config (mock (fixture created_fixture))
    (lit "create_spreadsheet") (Some create_arguments)
  = text_result created_text
  /\ ~ contains (lit "Created OK") created_text
  /\ CallTool config (mock (fixture (VObj (sheet_fixture 11))))
       (lit "read_sheet") (Some sheet_arguments)
     = text_result eleven_rows_text
  /\ ~ contains (lit "item11") eleven_rows_text
  /\ CallTool config (mock (fixture deleted_fixture))
       (lit "delete_rows") (Some delete_rows_arguments)
     = text_result deleted_text
  /\ ~ contains (lit "7") deleted_text.
Proof.
  repeat split; try reflexivity; apply not_includes; reflexivity.
Qed.

Lemma branches_show_witness :
  shows_field created_fixture [lit "spreadsheetId"] created_text
  /\ shows_field created_fixture [lit "spreadsheetUrl"] created_text.
Proof.
  destruct (branches_show_the_fields_they_read (NUM := numbers)
              (PLAT := platform) config (mock (fixture created_fixture))
              created_fixture (Some create_arguments) created_text
              (mock_returns_json created_fixture))
    as (H & _).
  exact (H eq_refl).
Defined.

(** C4 fails as stated: with eleven rows the text has no
    ["...and 1 more rows"]; the marker has a space after the dots. *)
Lemma read_sheet_marker_counterexample :
  CallTool config (mock (fixture (VObj (sheet_fixture 11))))
    (lit "read_sheet") (Some sheet_arguments)
  = text_result eleven_rows_text
  /\ ~ contains (lit "...and 1 more rows") eleven_rows_text
  /\ contains (nl ++ lit "... and 1 more rows") eleven_rows_text.
Proof.
  split; [reflexivity | split].
  - apply not_includes. reflexivity.
  - apply includes_spec. reflexivity.
Qed.

Lemma read_sheet_truncates_witness :
  CallTool config (mock (fixture (VObj (sheet_fixture 11))))
    (lit "read_sheet") (Some sheet_arguments)
  = text_result eleven_rows_text
  /\ List.length ten_lines = 10%nat.
Proof.
  destruct (read_sheet_truncates (NUM := numbers) (PLAT := platform)
              config (mock (fixture (VObj (sheet_fixture 11))))
              sheet_arguments (sheet_fixture 11) (rows_fixture 11) ten_lines
              (lit "A:Z") (lit "11") (lit "name, qty")
              sheet_arguments_render (mock_returns_json _) eq_refl
              ltac:(cbn; lia) (safe_small 11 ltac:(lia)) eq_refl eq_refl
              eq_refl eq_refl)
    as (T & L & _).
  split; [exact T | exact L].
Defined.

Lemma delete_rows_reports_span_witness :
  CallTool config (mock (fixture deleted_fixture)) (lit "delete_rows")
    (Some delete_rows_arguments)
  = text_result
      (lit "Successfully deleted rows from index " ++ decimal 2
       ++ lit " to " ++ decimal (5 - 1)
       ++ lit " (" ++ decimal (5 - 2) ++ lit " rows total)").
Proof.
  destruct (delete_rows_reports_span (NUM := numbers) (PLAT := platform)
              config (mock (fixture deleted_fixture)) delete_rows_arguments
              (Some 2) (Some 5) eq_refl eq_refl eq_refl)
    as (_ & H & _).
  exact (H 2 5 eq_refl eq_refl (safe_small 2 ltac:(lia))
           (safe_small 5 ltac:(lia)) (safe_small (5 - 1) ltac:(lia))
           (safe_small (5 - 2) ltac:(lia))).
Defined.

Lemma delete_sheet_is_unknown :
  ~ In (lit "delete_sheet") (tool_names (NUM := numbers)).
Proof.
  unfold tool_names. cbn [map tools ListTools name In]. intros H.
  repeat (destruct H as [H | H]; [discriminate H|]). exact H.
Qed.

Lemma CallTool_unknown_tool_witness :
  CallTool config (mock (fixture VNull)) (lit "delete_sheet") None
  = error_result (lit "Error: Unknown tool: " ++ lit "delete_sheet").
Proof.
  exact (proj1 (CallTool_unknown_tool (NUM := numbers) (PLAT := platform)
                  config (mock (fixture VNull)) (lit "delete_sheet") None
                  delete_sheet_is_unknown)).
Defined.

Lemma get_sheet_metadata_deterministic_witness :
  CallTool config (mock (fixture metadata_fixture)) (lit "get_sheet_metadata")
    (Some sheet_arguments)
  = CallTool config (fun url init => mock (fixture metadata_fixture) url init)
      (lit "get_sheet_metadata") (Some sheet_arguments).
Proof.
  exact (proj1 (get_sheet_metadata_deterministic (NUM := numbers)
                  (PLAT := platform) config
                  (mock (fixture metadata_fixture))
                  (fun url init => mock (fixture metadata_fixture) url init)
                  (Some sheet_arguments))
           (fun url init => eq_refl)).
Defined.

Lemma response_not_inspected_witness :
  CallTool config (mock (fixture deleted_fixture)) (lit "delete_rows")
    (Some delete_rows_arguments)
  = CallTool config (mock (fixture VNull)) (lit "delete_rows")
      (Some delete_rows_arguments).
Proof.
  exact (proj1 (response_not_inspected (NUM := numbers) (PLAT := platform)
                  config (mock (fixture deleted_fixture))
                  (mock (fixture VNull)) (Some delete_rows_arguments)
                  (mock_succeeds _) (mock_succeeds _))).
Defined.

Lemma read_sheet_no_data_witness :
  CallTool config (mock (fixture (VObj empty_sheet_fixture)))
    (lit "read_sheet") (Some sheet_arguments)
  = text_result no_data_text
  /\ isError (CallTool config (mock (fixture (VObj empty_sheet_fixture)))
                (lit "read_sheet") (Some sheet_arguments)) = None.
Proof.
  destruct (read_sheet_no_data (NUM := numbers) (PLAT := platform)
              config (mock (fixture (VObj empty_sheet_fixture)))
              sheet_arguments empty_sheet_fixture
              (lit "A:Z") (lit "0") (lit "No headers")
              sheet_arguments_render (mock_returns_json _)
              (or_intror eq_refl) eq_refl eq_refl eq_refl)
    as (T & E & _).
  split; [exact T | exact E].
Defined.

End Examples.

(** * Further properties of the dispatcher

    ** The request each tool sends *)

Section Requests.
Context {number : Type} {NUM : JSNumber number} {PLAT : Platform number}.
Variable config : Config.

(** From the call of [callSheeterAPI] on, a branch is [fetch] at the
    request followed by steps that do not mention the network. *)
Ltac expose_fetch :=
  unfold callSheeterAPI; cbv zeta; rewrite !bind_assoc; reflexivity.

(** X1.  [create_spreadsheet] posts [{ title }] to [/api/sheets/create], whatever
    the title is (an absent one included), with the two default headers. *)
Theorem create_spreadsheet_request (o : object number) :
  sends (CallTool config) (lit "create_spreadsheet") (Some o)
    (baseUrl config ++ lit "/api/sheets/create")
    {| method := Some (lit "POST");
       body := Some (JSON_stringify
                       (VObj [(lit "title", own o (lit "title"))]));
       headers := default_headers config |}.
Proof.
  apply sends_intro. eexists. intros fetch.
  change (switch config fetch (lit "create_spreadsheet")
            (arguments_value (Some o)))
    with (create_spreadsheet config fetch (VObj o)).
  unfold create_spreadsheet. cbn [destructure bind]. expose_fetch.
Qed.

(** X2.  The five tools that send a body under a sheet: the path has the string
    of [sheetId], the body has the arguments as given, and an absent
    [majorDimension], [valueRenderOption] or [valueInputOption] goes out
    as its default. *)
Theorem body_requests (o : object number) (s : jstring) :
  ToString (own o (lit "sheetId")) = Normal s ->
  sends (CallTool config) (lit "write_sheet") (Some o)
    (baseUrl config ++ lit "/api/sheets/" ++ s ++ lit "/values")
    {| method := Some (lit "PUT");
       body := Some (JSON_stringify (VObj
         [(lit "range", own o (lit "range"));
          (lit "values", own o (lit "values"));
          (lit "valueInputOption",
           default_to (VStr (lit "USER_ENTERED"))
             (own o (lit "valueInputOption")))]));
       headers := default_headers config |}
  /\ sends (CallTool config) (lit "append_to_sheet") (Some o)
       (baseUrl config ++ lit "/api/sheets/" ++ s ++ lit "/append")
       {| method := Some (lit "POST");
          body := Some (JSON_stringify (VObj
            [(lit "values", own o (lit "values"));
             (lit "valueInputOption",
              default_to (VStr (lit "USER_ENTERED"))
                (own o (lit "valueInputOption")))]));
          headers := default_headers config |}
  /\ sends (CallTool config) (lit "batch_get_ranges") (Some o)
       (baseUrl config ++ lit "/api/sheets/" ++ s ++ lit "/batch-get")
       {| method := Some (lit "POST");
          body := Some (JSON_stringify (VObj
            [(lit "ranges", own o (lit "ranges"));
             (lit "majorDimension",
              default_to (VStr (lit "ROWS")) (own o (lit "majorDimension")));
             (lit "valueRenderOption",
              default_to (VStr (lit "FORMATTED_VALUE"))
                (own o (lit "valueRenderOption")))]));
          headers := default_headers config |}
  /\ sends (CallTool config) (lit "batch_update_ranges") (Some o)
       (baseUrl config ++ lit "/api/sheets/" ++ s ++ lit "/batch-update")
       {| method := Some (lit "PUT");
          body := Some (JSON_stringify (VObj
            [(lit "data", own o (lit "data"));
             (lit "valueInputOption",
              default_to (VStr (lit "USER_ENTERED"))
                (own o (lit "valueInputOption")))]));
          headers := default_headers config |}
  /\ sends (CallTool config) (lit "batch_update_spreadsheet") (Some o)
       (baseUrl config ++ lit "/api/sheets/" ++ s
        ++ lit "/batch-update-spreadsheet")
       {| method := Some (lit "POST");
          body := Some (JSON_stringify
                          (VObj [(lit "requests", own o (lit "requests"))]));
          headers := default_headers config |}.
Proof.
  intros Hs. repeat split; apply sends_intro; eexists; intros fetch.
  - change (switch config fetch (lit "write_sheet") (arguments_value (Some o)))
      with (write_sheet config fetch (VObj o)).
    unfold write_sheet. cbn [destructure bind]. rewrite Hs. cbn [bind].
    expose_fetch.
  - change (switch config fetch (lit "append_to_sheet")
              (arguments_value (Some o)))
      with (append_to_sheet config fetch (VObj o)).
    unfold append_to_sheet. cbn [destructure bind]. rewrite Hs. cbn [bind].
    expose_fetch.
  - change (switch config fetch (lit "batch_get_ranges")
              (arguments_value (Some o)))
      with (batch_get_ranges config fetch (VObj o)).
    unfold batch_get_ranges. cbn [destructure bind]. rewrite Hs. cbn [bind].
    expose_fetch.
  - change (switch config fetch (lit "batch_update_ranges")
              (arguments_value (Some o)))
      with (batch_update_ranges config fetch (VObj o)).
    unfold batch_update_ranges. cbn [destructure bind]. rewrite Hs.
    cbn [bind]. expose_fetch.
  - change (switch config fetch (lit "batch_update_spreadsheet")
              (arguments_value (Some o)))
      with (batch_update_spreadsheet config fetch (VObj o)).
    unfold batch_update_spreadsheet. cbn [destructure bind]. rewrite Hs.
    cbn [bind]. expose_fetch.
Qed.

(** X3.  The two tools that read: no method and no body are given, so [fetch]
    makes a GET.  [read_sheet] puts the range, the major dimension and the
    render option in the query, each as given or as its default. *)
Theorem read_requests (o : object number) (s range_s dimension option_s : jstring) :
  ToString (own o (lit "sheetId")) = Normal s ->
  ToString (default_to (VStr (lit "A:Z")) (own o (lit "range")))
    = Normal range_s ->
  ToString (default_to (VStr (lit "ROWS")) (own o (lit "majorDimension")))
    = Normal dimension ->
  ToString (default_to (VStr (lit "FORMATTED_VALUE"))
              (own o (lit "valueRenderOption"))) = Normal option_s ->
  sends (CallTool config) (lit "read_sheet") (Some o)
    (baseUrl config ++ lit "/api/sheets/" ++ s ++ lit "?"
     ++ URLSearchParams_toString
          [(lit "range", range_s); (lit "majorDimension", dimension);
           (lit "valueRenderOption", option_s)])
    {| method := None; body := None; headers := default_headers config |}
  /\ sends (CallTool config) (lit "get_sheet_metadata") (Some o)
       (baseUrl config ++ lit "/api/sheets/" ++ s ++ lit "/metadata")
       {| method := None; body := None; headers := default_headers config |}.
Proof.
  intros Hs Hr Hd Ho. split; apply sends_intro; eexists; intros fetch.
  - change (switch config fetch (lit "read_sheet") (arguments_value (Some o)))
      with (read_sheet config fetch (VObj o)).
    unfold read_sheet, URLSearchParams.
    cbn [destructure bind mapM fst snd]. rewrite Hr, Hd, Ho, Hs. cbn [bind].
    expose_fetch.
  - change (switch config fetch (lit "get_sheet_metadata")
              (arguments_value (Some o)))
      with (get_sheet_metadata config fetch (VObj o)).
    unfold get_sheet_metadata. cbn [destructure bind]. rewrite Hs. cbn [bind].
    expose_fetch.
Qed.

(** X4.  The two tools that delete.  [delete_rows] puts the two indices and the
    tab id in the query as their [toString()] gives them, the tab id being 0
    when absent. *)
Theorem delete_requests (o : object number)
    (s range_s first last tab : jstring) :
  ToString (own o (lit "sheetId")) = Normal s ->
  (ToString (own o (lit "range")) = Normal range_s ->
   sends (CallTool config) (lit "clear_range") (Some o)
     (baseUrl config ++ lit "/api/sheets/" ++ s ++ lit "/values?"
      ++ URLSearchParams_toString [(lit "range", range_s)])
     {| method := Some (lit "DELETE"); body := None;
        headers := default_headers config |})
  /\ (call_toString (lit "startIndex") (own o (lit "startIndex"))
        = Normal first ->
      call_toString (lit "endIndex") (own o (lit "endIndex")) = Normal last ->
      call_toString (lit "sheetTabId")
        (default_to (VNum (num_of_Z 0)) (own o (lit "sheetTabId")))
        = Normal tab ->
      sends (CallTool config) (lit "delete_rows") (Some o)
        (baseUrl config ++ lit "/api/sheets/" ++ s ++ lit "/rows?"
         ++ URLSearchParams_toString
              [(lit "startIndex", first); (lit "endIndex", last);
               (lit "sheetTabId", tab)])
        {| method := Some (lit "DELETE"); body := None;
           headers := default_headers config |}).
Proof.
  intros Hs. split.
  - intros Hr. apply sends_intro; eexists; intros fetch.
    change (switch config fetch (lit "clear_range") (arguments_value (Some o)))
      with (clear_range config fetch (VObj o)).
    unfold clear_range, URLSearchParams.
    cbn [destructure bind mapM fst snd]. rewrite Hr, Hs. cbn [bind].
    expose_fetch.
  - intros Hf Hl Ht. apply sends_intro; eexists; intros fetch.
    change (switch config fetch (lit "delete_rows") (arguments_value (Some o)))
      with (delete_rows config fetch (VObj o)).
    unfold delete_rows, URLSearchParams.
    cbn [destructure bind]. cbv zeta. rewrite Hf, Hl, Ht.
    cbn [bind mapM fst snd ToString]. rewrite Hs. cbn [bind].
    expose_fetch.
Qed.

(** X5.  Without an arguments object each of the ten tools fails on its first
    destructuring, and the result is the same on every network: no request
    is sent. *)
Theorem no_arguments_no_request (tool : jstring) :
  In tool tool_names ->
  exists p, forall fetch,
    CallTool config fetch tool None =
    error_result
      (lit "Error: " ++ TypeError_message (DestructureNullish false p)).
Proof.
  unfold tool_names. cbn [map tools ListTools name In]. intros H.
  repeat (destruct H as [<- | H];
          [eexists; intros fetch; reflexivity|]).
  destruct H.
Qed.

End Requests.

(** ** Arguments: defaults, and what is not checked *)

Lemma own_cons {number} (k : jstring) (v : value number) (o : object number)
    (k' : jstring) :
  own ((k, v) :: o) k' = if jstring_eqb k k' then v else own o k'.
Proof. reflexivity. Qed.

(** Comparisons of two literals, evaluated. *)
Ltac eval_eqb :=
  repeat match goal with
         | |- context [jstring_eqb (lit ?a) (lit ?b)] =>
             let r := eval vm_compute in (jstring_eqb (lit a) (lit b)) in
             change (jstring_eqb (lit a) (lit b)) with r
         end.

Ltac eval_eqb_in H :=
  repeat match type of H with
         | context [jstring_eqb (lit ?a) (lit ?b)] =>
             let r := eval vm_compute in (jstring_eqb (lit a) (lit b)) in
             change (jstring_eqb (lit a) (lit b)) with r in H
         end.

Ltac unfold_branches :=
  try unfold create_spreadsheet; try unfold read_sheet;
  try unfold write_sheet; try unfold append_to_sheet;
  try unfold clear_range; try unfold batch_get_ranges;
  try unfold batch_update_ranges; try unfold get_sheet_metadata;
  try unfold delete_rows; try unfold batch_update_spreadsheet.

Ltac unfold_branches_in H :=
  try unfold create_spreadsheet in H; try unfold read_sheet in H;
  try unfold write_sheet in H; try unfold append_to_sheet in H;
  try unfold clear_range in H; try unfold batch_get_ranges in H;
  try unfold batch_update_ranges in H; try unfold get_sheet_metadata in H;
  try unfold delete_rows in H; try unfold batch_update_spreadsheet in H.

Section Arguments.
Context {number : Type} {NUM : JSNumber number} {PLAT : Platform number}.
Variable config : Config.

(** The defaults the catalog declares, all nine of them. *)
Lemma declared_defaults (t : Tool number) (p : jstring) (d : value number) :
  In t (tools ListTools) -> declared_default t p = Some d ->
  In (name t, p, d)
    [ (lit "read_sheet", lit "range", VStr (lit "A:Z"));
      (lit "read_sheet", lit "majorDimension", VStr (lit "ROWS"));
      (lit "read_sheet", lit "valueRenderOption",
       VStr (lit "FORMATTED_VALUE"));
      (lit "write_sheet", lit "valueInputOption", VStr (lit "USER_ENTERED"));
      (lit "append_to_sheet", lit "valueInputOption",
       VStr (lit "USER_ENTERED"));
      (lit "batch_get_ranges", lit "majorDimension", VStr (lit "ROWS"));
      (lit "batch_get_ranges", lit "valueRenderOption",
       VStr (lit "FORMATTED_VALUE"));
      (lit "batch_update_ranges", lit "valueInputOption",
       VStr (lit "USER_ENTERED"));
      (lit "delete_rows", lit "sheetTabId", VNum (num_of_Z 0)) ].
Proof.
  intros Ht Hd. cbn [tools ListTools In] in Ht.
  repeat (destruct Ht as [<- | Ht]); [ .. | destruct Ht];
    unfold declared_default in Hd; cbn [inputSchema name] in *;
    unfold schema, obj, sheetId_property, majorDimension_property,
      valueRenderOption_property, valueInputOption_property, str in Hd;
    cbn [map fst snd] in Hd;
    repeat first
      [ discriminate Hd
      | progress (cbn [own has_own orb] in Hd; eval_eqb_in Hd; cbv iota in Hd)
      | match type of Hd with
        | context [jstring_eqb (lit ?a) p] =>
            let E := fresh "E" in
            destruct (jstring_eqb (lit a) p) eqn:E;
            [apply jstring_eqb_eq in E; subst p | ]
        end
      | injection Hd as <-; cbn [In];
        repeat (try (left; reflexivity); right) ].
Qed.

(** X6.  Leaving out an optional argument is the same as passing the default
    that the catalog declares for it: the dispatcher's defaults and the
    catalog's agree, for every tool and every property with a default. *)
Theorem omitted_optional_is_declared_default fetch (t : Tool number)
    (p : jstring) (d : value number) (o : object number) :
  In t (tools ListTools) ->
  declared_default t p = Some d ->
  own o p = VUndefined ->
  CallTool config fetch (name t) (Some o)
  = CallTool config fetch (name t) (Some ((p, d) :: o)).
Proof.
  intros Ht Hd Ho. pose proof (declared_defaults t p d Ht Hd) as H.
  cbn [In] in H.
  repeat (destruct H as [H | H];
          [ injection H as Hn <- <-; rewrite <- Hn;
            unfold CallTool, switch; eval_eqb; cbv iota; unfold_branches;
            cbn [arguments_value destructure bind];
            rewrite !own_cons; eval_eqb; cbv iota; rewrite ?Ho;
            cbn [default_to]; reflexivity
          | ]).
  destruct H.
Qed.

(** X7.  [sheetId] is required by the catalog and not checked by the
    dispatcher: leaving it out is the same as passing the string
    ["undefined"], for every tool name. *)
Theorem missing_sheetId_is_the_string_undefined fetch (tool : jstring)
    (o : object number) :
  own o (lit "sheetId") = VUndefined ->
  CallTool config fetch tool (Some o)
  = CallTool config fetch tool
      (Some ((lit "sheetId", VStr (lit "undefined")) :: o)).
Proof.
  intros Ho. unfold CallTool, switch.
  repeat match goal with
         | |- context [if jstring_eqb tool ?l then _ else _] =>
             destruct (jstring_eqb tool l)
         end;
    unfold_branches; cbn [arguments_value destructure bind];
    rewrite ?own_cons; eval_eqb; cbv iota; rewrite ?Ho;
    cbn [ToString bind]; reflexivity.
Qed.

(** X8.  [delete_rows] calls [toString()] on its indices before the request: an
    absent or null [startIndex] fails there, on every network. *)
Theorem delete_rows_without_startIndex fetch (o : object number) :
  nullish (own o (lit "startIndex")) = true ->
  CallTool config fetch (lit "delete_rows") (Some o) =
  error_result
    (lit "Error: "
     ++ TypeError_message
          (ReadOfNullish (is_null (own o (lit "startIndex")))
             (lit "toString"))).
Proof.
  intros H. unfold CallTool.
  change (switch config fetch (lit "delete_rows") (arguments_value (Some o)))
    with (delete_rows config fetch (VObj o)).
  unfold delete_rows. cbn [destructure bind]. cbv zeta.
  destruct (own o (lit "startIndex")); try discriminate H; reflexivity.
Qed.

(** X9.  [batch_update_spreadsheet] reads [requests.length] after the request:
    with [requests] absent or null the POST is sent all the same, and the
    invocation then reports an error although the API call succeeded. *)
Theorem batch_update_spreadsheet_without_requests (o : object number)
    (s : jstring) :
  ToString (own o (lit "sheetId")) = Normal s ->
  nullish (own o (lit "requests")) = true ->
  sends (CallTool config) (lit "batch_update_spreadsheet") (Some o)
    (baseUrl config ++ lit "/api/sheets/" ++ s
     ++ lit "/batch-update-spreadsheet")
    {| method := Some (lit "POST");
       body := Some (JSON_stringify
                       (VObj [(lit "requests", own o (lit "requests"))]));
       headers := default_headers config |}
  /\ forall fetch result,
       returns_json fetch result ->
       CallTool config fetch (lit "batch_update_spreadsheet") (Some o) =
       error_result
         (lit "Error: "
          ++ TypeError_message
               (ReadOfNullish (is_null (own o (lit "requests")))
                  (lit "length"))).
Proof.
  intros Hs Hr. split.
  - apply sends_intro. eexists. intros fetch.
    change (switch config fetch (lit "batch_update_spreadsheet")
              (arguments_value (Some o)))
      with (batch_update_spreadsheet config fetch (VObj o)).
    unfold batch_update_spreadsheet. cbn [destructure bind]. rewrite Hs.
    cbn [bind]. unfold callSheeterAPI; cbv zeta; rewrite !bind_assoc;
    reflexivity.
  - intros fetch result R. unfold CallTool.
    change (switch config fetch (lit "batch_update_spreadsheet")
              (arguments_value (Some o)))
      with (batch_update_spreadsheet config fetch (VObj o)).
    unfold batch_update_spreadsheet. cbn [destructure bind]. rewrite Hs.
    cbn [bind]. rewrite (callSheeterAPI_returns config fetch result _ _ R).
    cbn [bind]. unfold interp.
    destruct (own o (lit "requests")); try discriminate Hr; reflexivity.
Qed.

End Arguments.

(** ** More on listings *)

Lemma mapMi_from_throws {A B} (f : A -> nat -> completion B) (x : A)
    (l : list A) :
  In x l -> (forall i, exists e, f x i = Throw e) ->
  forall idx, exists e, mapMi_from f idx l = Throw e.
Proof.
  intros Hin Hx. induction l as [|a l IH]; [destruct Hin|].
  intros idx. cbn [mapMi_from]. destruct Hin as [-> | Hin].
  - destruct (Hx idx) as (e & ->). now exists e.
  - destruct (f a idx) as [y|e]; cbn [bind]; [|now exists e].
    destruct (IH Hin (S idx)) as (e & ->). now exists e.
Qed.

Section Listings.
Context {number : Type} {NUM : JSNumber number} {PLAT : Platform number}.
Variable config : Config.

Lemma dataText_up_to_ten (ro : object number) (rows : list (value number))
    (lines : list jstring) :
  own ro (lit "data") = VArr rows ->
  (0 < List.length rows <= 10)%nat ->
  mapMi format_row rows = Normal lines ->
  dataText (VObj ro) = Normal (join_strings nl lines).
Proof.
  intros Hdata Hlen Hlines. unfold dataText. cbn [Get bind].
  rewrite Hdata.
  cbn [Get_length_opt nullish Get_length js_gt js_sub ToNumber bind
       length_value].
  assert (S0 : safe 0) by (unfold safe; lia).
  assert (S10 : safe 10) by (unfold safe; lia).
  assert (Sn : safe (Z.of_nat (List.length rows))) by (unfold safe; lia).
  rewrite (num_lt_exact S0 Sn).
  replace (0 <? Z.of_nat (List.length rows)) with true
    by (symmetry; apply Z.ltb_lt; lia).
  rewrite firstn_all2 by lia. rewrite Hlines. cbn [bind].
  rewrite (num_lt_exact S10 Sn).
  replace (10 <? Z.of_nat (List.length rows)) with false
    by (symmetry; apply Z.ltb_ge; lia).
  cbn [bind]. now rewrite app_nil_r.
Qed.

(** X10.  With one to ten rows [read_sheet] lists every row and adds no marker. *)
Theorem read_sheet_lists_all_rows fetch (o ro : object number)
    (rows : list (value number)) (lines : list jstring)
    (range_s rowCount headers_s : jstring) :
  (forall k, renders (own o k)) ->
  returns_json fetch (VObj ro) ->
  own ro (lit "data") = VArr rows ->
  (0 < List.length rows <= 10)%nat ->
  mapMi format_row rows = Normal lines ->
  ToString (own ro (lit "range")) = Normal range_s ->
  ToString (own ro (lit "rowCount")) = Normal rowCount ->
  headers_line (own ro (lit "headers")) = Normal headers_s ->
  CallTool config fetch (lit "read_sheet") (Some o) =
    text_result
      (lit "Sheet Data from " ++ range_s ++ lit " (" ++ rowCount
       ++ lit " rows):" ++ nl ++ nl ++ lit "Headers: " ++ headers_s
       ++ nl ++ nl ++ lit "Data:" ++ nl ++ join_strings nl lines)
  /\ List.length lines = List.length rows.
Proof.
  intros Hargs R Hdata Hlen Hlines Hrange Hrows Hheaders. split.
  - exact (read_sheet_returns config fetch o ro _ _ _ _ Hargs R
             (dataText_up_to_ten ro rows lines Hdata Hlen Hlines)
             Hrange Hrows Hheaders).
  - unfold mapMi in Hlines. exact (mapMi_from_length _ _ _ _ Hlines).
Qed.

Lemma dataText_first_ten (ro ro' : object number)
    (rows rows' : list (value number)) :
  own ro (lit "data") = VArr rows ->
  own ro' (lit "data") = VArr rows' ->
  List.length rows = List.length rows' ->
  firstn 10 rows = firstn 10 rows' ->
  dataText (VObj ro) = dataText (VObj ro').
Proof.
  intros H H' Hlen Hfirst. unfold dataText. cbn [Get bind].
  rewrite H, H'. cbn [Get_length_opt nullish Get_length]. cbn [bind].
  now rewrite Hlen, Hfirst.
Qed.

(** X11.  [read_sheet] does not read the rows after the tenth: two responses
    that have the same fields otherwise, the same number of rows and the
    same first ten rows give the same result, whatever the later rows are. *)
Theorem rows_after_the_tenth_are_not_read fetch fetch'
    (arguments : option (object number)) (ro ro' : object number)
    (rows rows' : list (value number)) :
  returns_json fetch (VObj ro) ->
  returns_json fetch' (VObj ro') ->
  own ro (lit "data") = VArr rows ->
  own ro' (lit "data") = VArr rows' ->
  (forall k, k <> lit "data" -> own ro' k = own ro k) ->
  List.length rows = List.length rows' ->
  firstn 10 rows = firstn 10 rows' ->
  CallTool config fetch (lit "read_sheet") arguments
  = CallTool config fetch' (lit "read_sheet") arguments.
Proof.
  intros R R' H H' Hsame Hlen Hfirst. unfold CallTool.
  change (switch config fetch (lit "read_sheet") (arguments_value arguments))
    with (read_sheet config fetch (arguments_value arguments)).
  change (switch config fetch' (lit "read_sheet") (arguments_value arguments))
    with (read_sheet config fetch' (arguments_value arguments)).
  unfold read_sheet.
  repeat match goal with
         | |- context [callSheeterAPI config fetch _ _] =>
             first
               [ match goal with
                 | |- context [bind (callSheeterAPI config fetch ?ep ?op) _] =>
                     rewrite
                       (callSheeterAPI_returns config fetch (VObj ro) ep op R),
                       (callSheeterAPI_returns config fetch' (VObj ro') ep op
                          R');
                     cbn [bind]
                 end
               | match goal with
                 | |- context [bind ?c _] =>
                     destruct c; cbn [bind]; try reflexivity
                 end ]
         end.
  rewrite (dataText_first_ten ro ro' rows rows' H H' Hlen Hfirst).
  unfold interp. cbn [Get bind].
  rewrite !Hsame by discriminate. reflexivity.
Qed.

(** X12.  A [null] among the first ten rows makes [read_sheet] fail, although the
    API call succeeded: [Object.entries(null)] throws. *)
Theorem read_sheet_null_row_is_an_error fetch
    (arguments : option (object number)) (ro : object number)
    (rows : list (value number)) :
  returns_json fetch (VObj ro) ->
  own ro (lit "data") = VArr rows ->
  safe (Z.of_nat (List.length rows)) ->
  In VNull (firstn 10 rows) ->
  isError (CallTool config fetch (lit "read_sheet") arguments) = Some true.
Proof.
  intros R Hdata Hsafe Hin.
  assert (D : exists e, dataText (VObj ro) = Throw e).
  { unfold dataText. cbn [Get bind]. rewrite Hdata.
    cbn [Get_length_opt nullish Get_length js_gt ToNumber bind length_value].
    assert (S0 : safe 0) by (unfold safe; lia).
    rewrite (num_lt_exact S0 Hsafe).
    replace (0 <? Z.of_nat (List.length rows)) with true
      by (symmetry; apply Z.ltb_lt; destruct rows; [destruct Hin | cbn; lia]).
    unfold mapMi.
    destruct (mapMi_from_throws format_row VNull (firstn 10 rows) Hin
                (fun i => ex_intro _ _ eq_refl) 0%nat) as (e & ->).
    now exists e. }
  destruct D as (e & D). unfold CallTool.
  change (switch config fetch (lit "read_sheet") (arguments_value arguments))
    with (read_sheet config fetch (arguments_value arguments)).
  unfold read_sheet.
  repeat match goal with
         | |- context [callSheeterAPI config fetch _ _] =>
             first
               [ match goal with
                 | |- context [bind (callSheeterAPI config fetch ?ep ?op) _] =>
                     rewrite
                       (callSheeterAPI_returns config fetch (VObj ro) ep op R);
                     cbn [bind]
                 end
               | match goal with
                 | |- context [bind ?c _] =>
                     destruct c; cbn [bind]; try reflexivity
                 end ]
         end.
  rewrite D. reflexivity.
Qed.

(** X13.  An absent, null or empty list of sheets or of value ranges is shown as
    a fixed line, not as an empty listing. *)
Theorem empty_lists_fall_back (ro : object number) :
  (own ro (lit "sheets") = VUndefined \/ own ro (lit "sheets") = VNull
   \/ own ro (lit "sheets") = VArr [] ->
   sheetsInfo (VObj ro) = Normal (lit "No sheets found"))
  /\ (own ro (lit "valueRanges") = VUndefined
      \/ own ro (lit "valueRanges") = VNull
      \/ own ro (lit "valueRanges") = VArr [] ->
      rangeResults (VObj ro) = Normal (lit "No ranges returned")).
Proof.
  split; intros H; [unfold sheetsInfo | unfold rangeResults];
    cbn [Get bind]; destruct H as [-> | [-> | ->]]; reflexivity.
Qed.

(** X14.  A value range whose [values] are absent, null or empty counts 0 rows. *)
Theorem range_without_values_counts_zero (vr : object number) (idx : nat)
    (range_s : jstring) :
  ToString (own vr (lit "range")) = Normal range_s ->
  own vr (lit "values") = VUndefined \/ own vr (lit "values") = VNull
  \/ own vr (lit "values") = VArr [] ->
  format_range (VObj vr) idx =
  Normal (lit "Range " ++ index_plus_one idx ++ lit " (" ++ range_s
          ++ lit "): 0 rows").
Proof.
  intros Hr H. unfold format_range, interp. cbn [Get bind]. rewrite Hr.
  cbn [bind values_length Get].
  assert (S0 : safe 0) by (unfold safe; lia).
  assert (Z0 : ToString (js_or (length_value 0) (VNum (num_of_Z 0)))
               = Normal (lit "0")).
  { unfold js_or, length_value. change (Z.of_nat 0) with 0.
    destruct (ToBoolean (VNum (num_of_Z 0))); cbn [ToString];
      now rewrite (num_toString_exact S0). }
  destruct H as [-> | [-> | ->]];
    cbn [bind Get_length_opt nullish Get_length List.length].
  - cbn [js_or ToBoolean ToString bind]. now rewrite (num_toString_exact S0).
  - cbn [js_or ToBoolean ToString bind]. now rewrite (num_toString_exact S0).
  - rewrite Z0. reflexivity.
Qed.

End Listings.

(** ** The error flag and the text *)

Section ErrorFlag.
Context {number : Type} {NUM : JSNumber number} {PLAT : Platform number}.
Variable config : Config.
Variable fetch : jstring -> RequestInit -> completion (Response.t number).

Lemma switch_text_is_no_error_text (name : jstring) (args : value number)
    (r : CallToolResult) :
  switch config fetch name args = Normal r ->
  exists t, r = text_result t /\ starts_with (lit "Error: ") t = false.
Proof.
  unfold switch. intros H.
  repeat match type of H with
         | (if ?b then _ else _) = _ => destruct b
         end;
    try discriminate;
    unfold_branches_in H;
    invert_binds H; injection H as <-; eexists; split; reflexivity.
Qed.

(** X15.  The text of a result begins with ["Error: "] exactly when the result
    has [isError]: no success text of any of the ten tools begins so. *)
Theorem error_flag_and_prefix_agree (name : jstring)
    (arguments : option (object number)) :
  exists t,
    CallTool config fetch name arguments =
    {| content := [{| type := lit "text"; text := t |}];
       isError := if starts_with (lit "Error: ") t then Some true else None |}.
Proof.
  unfold CallTool.
  destruct (switch config fetch name (arguments_value arguments)) as [r|e] eqn:E.
  - destruct (switch_text_is_no_error_text _ _ _ E) as (t & -> & Hp).
    exists t. now rewrite Hp.
  - exists (lit "Error: " ++ message e). reflexivity.
Qed.

End ErrorFlag.

(** ** The earlier server *)

Section EarlierServer.
Context {number : Type} {NUM : JSNumber number} {PLAT : Platform number}.
Variable config : Config.

(** X16.  The earlier dispatcher knows two names: every other one, the eight
    later tools included, is an unknown tool there. *)
Theorem earlier_unknown_tool fetch (tool : jstring)
    (arguments : option (object number)) :
  tool <> lit "create_spreadsheet" ->
  tool <> lit "read_sheet" ->
  Earlier.CallTool config fetch tool arguments =
  error_result (lit "Error: Unknown tool: " ++ tool).
Proof.
  intros H1 H2. unfold Earlier.CallTool, Earlier.switch.
  now rewrite (jstring_eqb_neq _ _ H1), (jstring_eqb_neq _ _ H2).
Qed.

(** The earlier catalog is the first two entries of the present one, by
    name and required arguments. *)
Example earlier_catalog_is_a_prefix :
  map (fun t : Tool number => (name t, required t))
      (tools Earlier.ListTools)
  = firstn 2 (map (fun t : Tool number => (name t, required t))
                  (tools ListTools)).
Proof. reflexivity. Qed.

Lemma earlier_read_sheet_after_call fetch (o ro : object number)
    (s range_s : jstring) :
  ToString (own o (lit "sheetId")) = Normal s ->
  ToString (default_to (VStr (lit "A:Z")) (own o (lit "range")))
    = Normal range_s ->
  returns_json fetch (VObj ro) ->
  Earlier.switch config fetch (lit "read_sheet") (VObj o) =
  (rowCount <- ToString (own ro (lit "rowCount")) ;;
   headers_s <- Earlier.headers_join (own ro (lit "headers")) ;;
   Normal (text_result
     (lit "Sheet data (" ++ rowCount ++ lit " rows):" ++ nl
      ++ lit "Headers: " ++ headers_s))).
Proof.
  intros Hs Hr R.
  change (Earlier.switch config fetch (lit "read_sheet") (VObj o))
    with (Earlier.read_sheet config fetch (VObj o)).
  unfold Earlier.read_sheet, URLSearchParams.
  cbn [destructure bind mapM fst snd]. rewrite Hr, Hs. cbn [bind].
  rewrite (callSheeterAPI_returns config fetch (VObj ro) _ _ R).
  reflexivity.
Qed.

(** X17.  The earlier [read_sheet] shows the row count and the headers and
    nothing of the rows; an empty [headers] array gives an empty headers
    line, there being no fallback. *)
Theorem earlier_read_sheet_text fetch (o ro : object number)
    (hs : list (value number)) (s range_s rowCount headers_s : jstring) :
  ToString (own o (lit "sheetId")) = Normal s ->
  ToString (default_to (VStr (lit "A:Z")) (own o (lit "range")))
    = Normal range_s ->
  returns_json fetch (VObj ro) ->
  ToString (own ro (lit "rowCount")) = Normal rowCount ->
  own ro (lit "headers") = VArr hs ->
  Array_join (lit ", ") hs = Normal headers_s ->
  Earlier.CallTool config fetch (lit "read_sheet") (Some o) =
    text_result
      (lit "Sheet data (" ++ rowCount ++ lit " rows):" ++ nl
       ++ lit "Headers: " ++ headers_s)
  /\ (hs = [] -> headers_s = []).
Proof.
  intros Hs Hr R Hc Hh Hj. split.
  - unfold Earlier.CallTool. cbn [arguments_value].
    rewrite (earlier_read_sheet_after_call fetch o ro s range_s Hs Hr R).
    rewrite Hc, Hh. cbn [bind Earlier.headers_join]. now rewrite Hj.
  - intros ->. now injection Hj as <-.
Qed.

(** X18.  The earlier [read_sheet] needs [headers]: when the response has none,
    the invocation is an error although the API call succeeded. *)
Theorem earlier_read_sheet_needs_headers fetch (o ro : object number)
    (s range_s rowCount : jstring) :
  ToString (own o (lit "sheetId")) = Normal s ->
  ToString (default_to (VStr (lit "A:Z")) (own o (lit "range")))
    = Normal range_s ->
  returns_json fetch (VObj ro) ->
  ToString (own ro (lit "rowCount")) = Normal rowCount ->
  nullish (own ro (lit "headers")) = true ->
  Earlier.CallTool config fetch (lit "read_sheet") (Some o) =
  error_result
    (lit "Error: "
     ++ TypeError_message
          (ReadOfNullish (is_null (own ro (lit "headers"))) (lit "join"))).
Proof.
  intros Hs Hr R Hc Hh. unfold Earlier.CallTool. cbn [arguments_value].
  rewrite (earlier_read_sheet_after_call fetch o ro s range_s Hs Hr R).
  rewrite Hc. cbn [bind].
  destruct (own ro (lit "headers")); try discriminate Hh; reflexivity.
Qed.

Lemma earlier_sends_intro (name : jstring)
    (arguments : option (object number)) (url : jstring)
    (init : RequestInit) :
  (exists K, forall fetch,
     Earlier.switch config fetch name (arguments_value arguments)
     = bind (fetch url init) K) ->
  sends (Earlier.CallTool config) name arguments url init.
Proof.
  intros (K & H).
  exists (fun response =>
            match K response with
            | Normal r => r
            | Throw e => error_result (lit "Error: " ++ message e)
            end).
  intros fetch. unfold Earlier.CallTool. rewrite H.
  destruct (fetch url init); reflexivity.
Qed.

(** X19.  The earlier server's requests: the same POST for a new spreadsheet,
    and for [read_sheet] a GET whose query has the range alone. *)
Theorem earlier_requests (o : object number) (s range_s : jstring) :
  sends (Earlier.CallTool config) (lit "create_spreadsheet") (Some o)
    (baseUrl config ++ lit "/api/sheets/create")
    {| method := Some (lit "POST");
       body := Some (JSON_stringify
                       (VObj [(lit "title", own o (lit "title"))]));
       headers := default_headers config |}
  /\ (ToString (own o (lit "sheetId")) = Normal s ->
      ToString (default_to (VStr (lit "A:Z")) (own o (lit "range")))
        = Normal range_s ->
      sends (Earlier.CallTool config) (lit "read_sheet") (Some o)
        (baseUrl config ++ lit "/api/sheets/" ++ s ++ lit "?"
         ++ URLSearchParams_toString [(lit "range", range_s)])
        {| method := None; body := None;
           headers := default_headers config |}).
Proof.
  split.
  - apply earlier_sends_intro. eexists. intros fetch.
    change (Earlier.switch config fetch (lit "create_spreadsheet")
              (arguments_value (Some o)))
      with (Earlier.create_spreadsheet config fetch (VObj o)).
    unfold Earlier.create_spreadsheet. cbn [destructure bind].
    unfold callSheeterAPI; cbv zeta; rewrite !bind_assoc; reflexivity.
  - intros Hs Hr. apply earlier_sends_intro. eexists. intros fetch.
    change (Earlier.switch config fetch (lit "read_sheet")
              (arguments_value (Some o)))
      with (Earlier.read_sheet config fetch (VObj o)).
    unfold Earlier.read_sheet, URLSearchParams.
    cbn [destructure bind mapM fst snd]. rewrite Hr, Hs. cbn [bind].
    unfold callSheeterAPI; cbv zeta; rewrite !bind_assoc; reflexivity.
Qed.

End EarlierServer.

(** ** A body that does not parse *)

Section Unparsable.
Context {number : Type} {NUM : JSNumber number} {PLAT : Platform number}.
Variable config : Config.

Lemma switch_when_the_call_throws fetch (e : error) (name : jstring)
    (args : value number) :
  (forall endpoint options,
     callSheeterAPI config fetch endpoint options = Throw e) ->
  exists e',
    switch config fetch name args = Throw e'
    /\ (e' = e \/ forall fetch', switch config fetch' name args = Throw e').
Proof.
  intros C. unfold switch.
  repeat match goal with
         | |- context [if ?b then _ else _] => destruct b
         end;
    unfold_branches;
    repeat match goal with
           | |- context [bind (callSheeterAPI config fetch ?ep ?o) _] =>
               rewrite (C ep o); cbn [bind]
           | |- context [bind ?c _] =>
               lazymatch c with
               | callSheeterAPI _ _ _ _ => fail
               | _ => destruct c; cbn [bind]
               end
           end;
    eexists; (split; [reflexivity|]);
    first [ left; reflexivity | right; intros; reflexivity ].
Qed.

(** X20.  When the API answers with an ok status and a body that is not JSON,
    every invocation that reaches the client is an error whose text is the
    parser's message; the body's text and the status are not reported. *)
Theorem unparsable_body_is_an_error fetch (response : Response.t number)
    (e : error) (name : jstring) (arguments : option (object number)) :
  (forall url init, fetch url init = Normal response) ->
  Response.ok response = true ->
  Response.json response = Throw e ->
  exists t,
    CallTool config fetch name arguments = error_result t
    /\ (t = lit "Error: " ++ message e
        \/ forall fetch',
             CallTool config fetch' name arguments = error_result t).
Proof.
  intros F Hok Hjson. unfold CallTool.
  assert (C : forall endpoint options,
             callSheeterAPI config fetch endpoint options = Throw e).
  { intros endpoint options. unfold callSheeterAPI. rewrite F. cbn [bind].
    now rewrite Hok. }
  destruct (switch_when_the_call_throws fetch e name
              (arguments_value arguments) C) as (e' & -> & [-> | H]).
  - eexists. split; [reflexivity | now left].
  - eexists. split; [reflexivity|]. right. intros fetch'. now rewrite H.
Qed.

End Unparsable.

(** ** The further properties on the reference runtime *)

Section MoreExamples.
Import Reference.
#[local] Existing Instance numbers.
#[local] Existing Instance platform.

Lemma body_requests_witness :
  sends (CallTool config) (lit "batch_update_spreadsheet")
    (Some sheet_arguments)
    (baseUrl config ++ lit "/api/sheets/" ++ lit "abc"
     ++ lit "/batch-update-spreadsheet")
    {| method := Some (lit "POST");
       body := Some (JSON_stringify
                       (VObj [(lit "requests",
                               own sheet_arguments (lit "requests"))]));
       headers := default_headers config |}.
Proof.
  destruct (body_requests (NUM := numbers) (PLAT := platform) config
              sheet_arguments (lit "abc") eq_refl)
    as (_ & _ & _ & _ & H).
  exact H.
Defined.

Lemma read_requests_witness :
  sends (CallTool config) (lit "read_sheet") (Some sheet_arguments)
    (baseUrl config ++ lit "/api/sheets/" ++ lit "abc" ++ lit "?"
     ++ URLSearchParams_toString
          [(lit "range", lit "A:Z"); (lit "majorDimension", lit "ROWS");
           (lit "valueRenderOption", lit "FORMATTED_VALUE")])
    {| method := None; body := None; headers := default_headers config |}.
Proof.
  exact (proj1 (read_requests (NUM := numbers) (PLAT := platform) config
                  sheet_arguments (lit "abc") (lit "A:Z") (lit "ROWS")
                  (lit "FORMATTED_VALUE") eq_refl eq_refl eq_refl eq_refl)).
Defined.

Lemma delete_requests_witness :
  sends (CallTool config) (lit "delete_rows") (Some delete_rows_arguments)
    (baseUrl config ++ lit "/api/sheets/" ++ lit "abc" ++ lit "/rows?"
     ++ URLSearchParams_toString
          [(lit "startIndex", lit "2"); (lit "endIndex", lit "5");
           (lit "sheetTabId", lit "0")])
    {| method := Some (lit "DELETE"); body := None;
       headers := default_headers config |}.
Proof.
  exact (proj2 (delete_requests (NUM := numbers) (PLAT := platform) config
                  delete_rows_arguments (lit "abc") (lit "undefined")
                  (lit "2") (lit "5") (lit "0") eq_refl)
           eq_refl eq_refl eq_refl).
Defined.

Lemma read_sheet_is_a_tool : In (lit "read_sheet") (tool_names (NUM := numbers)).
Proof. right. left. reflexivity. Qed.

Lemma no_arguments_no_request_witness :
  exists p, forall fetch,
    CallTool config fetch (lit "read_sheet") None =
    error_result
      (lit "Error: " ++ TypeError_message (DestructureNullish false p)).
Proof.
  exact (no_arguments_no_request (NUM := numbers) (PLAT := platform) config
           (lit "read_sheet") read_sheet_is_a_tool).
Defined.

Lemma omitted_optional_witness :
  CallTool config (mock (fixture (VObj (sheet_fixture 11))))
    (lit "read_sheet") (Some sheet_arguments)
  = CallTool config (mock (fixture (VObj (sheet_fixture 11))))
      (lit "read_sheet")
      (Some ((lit "range", VStr (lit "A:Z")) :: sheet_arguments)).
Proof.
  exact (omitted_optional_is_declared_default (NUM := numbers)
           (PLAT := platform) config
           (mock (fixture (VObj (sheet_fixture 11))))
           (nth 1 (tools ListTools) (Build_Tool [] [] VNull))
           (lit "range") (VStr (lit "A:Z")) sheet_arguments
           (or_intror (or_introl eq_refl)) eq_refl eq_refl).
Defined.

Lemma missing_sheetId_witness :
  CallTool config (mock (fixture metadata_fixture))
    (lit "get_sheet_metadata") (Some [])
  = CallTool config (mock (fixture metadata_fixture))
      (lit "get_sheet_metadata")
      (Some [(lit "sheetId", VStr (lit "undefined"))]).
Proof.
  exact (missing_sheetId_is_the_string_undefined (NUM := numbers)
           (PLAT := platform) config (mock (fixture metadata_fixture))
           (lit "get_sheet_metadata") [] eq_refl).
Defined.

Lemma delete_rows_without_startIndex_witness :
  CallTool config (mock (fixture deleted_fixture)) (lit "delete_rows")
    (Some sheet_arguments)
  = error_result
      (lit "Error: Cannot read properties of undefined (reading 'toString')").
Proof.
  exact (delete_rows_without_startIndex (NUM := numbers) (PLAT := platform)
           config (mock (fixture deleted_fixture)) sheet_arguments eq_refl).
Defined.

Lemma batch_update_spreadsheet_without_requests_witness :
  CallTool config (mock (fixture deleted_fixture))
    (lit "batch_update_spreadsheet") (Some sheet_arguments)
  = error_result
      (lit "Error: Cannot read properties of undefined (reading 'length')").
Proof.
  exact (proj2 (batch_update_spreadsheet_without_requests (NUM := numbers)
                  (PLAT := platform) config sheet_arguments (lit "abc")
                  eq_refl eq_refl)
           (mock (fixture deleted_fixture)) deleted_fixture
           (mock_returns_json deleted_fixture)).
Defined.

Lemma read_sheet_lists_all_rows_witness :
  CallTool config (mock (fixture (VObj (sheet_fixture 2))))
    (lit "read_sheet") (Some sheet_arguments)
  = text_result two_rows_text.
Proof.
  exact (proj1 (read_sheet_lists_all_rows (NUM := numbers) (PLAT := platform)
                  config (mock (fixture (VObj (sheet_fixture 2))))
                  sheet_arguments (sheet_fixture 2) (rows_fixture 2)
                  two_lines (lit "A:Z") (lit "2") (lit "name, qty")
                  sheet_arguments_render (mock_returns_json _) eq_refl
                  ltac:(cbn; lia) eq_refl eq_refl eq_refl eq_refl)).
Defined.

Lemma same_but_data (k : jstring) :
  k <> lit "data" ->
  own (sheet_with_rows 11 (rows_fixture 10 ++ [VNull])) k
  = own (sheet_with_rows 11 (rows_fixture 11)) k.
Proof.
  intros Hk. unfold sheet_with_rows. cbn [own].
  destruct (jstring_eqb (lit "success") k); [reflexivity|].
  destruct (jstring_eqb (lit "data") k) eqn:E; [|reflexivity].
  apply jstring_eqb_eq in E. congruence.
Qed.

Lemma rows_after_the_tenth_witness :
  CallTool config
    (mock (fixture (VObj (sheet_with_rows 11 (rows_fixture 11)))))
    (lit "read_sheet") (Some sheet_arguments)
  = CallTool config
      (mock (fixture
               (VObj (sheet_with_rows 11 (rows_fixture 10 ++ [VNull])))))
      (lit "read_sheet") (Some sheet_arguments).
Proof.
  exact (rows_after_the_tenth_are_not_read (NUM := numbers)
           (PLAT := platform) config _ _ (Some sheet_arguments)
           (sheet_with_rows 11 (rows_fixture 11))
           (sheet_with_rows 11 (rows_fixture 10 ++ [VNull]))
           (rows_fixture 11) (rows_fixture 10 ++ [VNull])
           (mock_returns_json _) (mock_returns_json _) eq_refl eq_refl
           same_but_data eq_refl eq_refl).
Defined.

Lemma read_sheet_null_row_witness :
  isError
    (CallTool config
       (mock (fixture (VObj (sheet_with_rows 2 [row_fixture 1; VNull]))))
       (lit "read_sheet") (Some sheet_arguments))
  = Some true.
Proof.
  exact (read_sheet_null_row_is_an_error (NUM := numbers) (PLAT := platform)
           config _ (Some sheet_arguments)
           (sheet_with_rows 2 [row_fixture 1; VNull]) [row_fixture 1; VNull]
           (mock_returns_json _) eq_refl (safe_small 2 ltac:(lia))
           (or_intror (or_introl eq_refl))).
Defined.

Lemma empty_lists_fall_back_witness :
  sheetsInfo (VObj empty_sheet_fixture) = Normal (lit "No sheets found")
  /\ rangeResults (VObj empty_sheet_fixture)
     = Normal (lit "No ranges returned").
Proof.
  destruct (empty_lists_fall_back (NUM := numbers) (PLAT := platform)
              empty_sheet_fixture) as (H1 & H2).
  split; [exact (H1 (or_introl eq_refl)) | exact (H2 (or_introl eq_refl))].
Defined.

Lemma range_without_values_witness :
  format_range (VObj range_only) 0 =
  Normal (lit "Range " ++ index_plus_one 0 ++ lit " (" ++ lit "A1:B2"
          ++ lit "): 0 rows").
Proof.
  exact (range_without_values_counts_zero (NUM := numbers) (PLAT := platform)
           range_only 0 (lit "A1:B2") eq_refl (or_introl eq_refl)).
Defined.

Lemma earlier_unknown_tool_witness :
  Earlier.CallTool config (mock (fixture VNull)) (lit "write_sheet")
    (Some sheet_arguments)
  = error_result (lit "Error: Unknown tool: " ++ lit "write_sheet").
Proof.
  exact (earlier_unknown_tool (NUM := numbers) (PLAT := platform) config
           (mock (fixture VNull)) (lit "write_sheet") (Some sheet_arguments)
           ltac:(discriminate) ltac:(discriminate)).
Defined.

Lemma earlier_read_sheet_text_witness :
  Earlier.CallTool config (mock (fixture (VObj (sheet_fixture 11))))
    (lit "read_sheet") (Some sheet_arguments)
  = text_result
      (lit "Sheet data (" ++ lit "11" ++ lit " rows):" ++ nl
       ++ lit "Headers: " ++ lit "name, qty").
Proof.
  exact (proj1 (earlier_read_sheet_text (NUM := numbers) (PLAT := platform)
                  config (mock (fixture (VObj (sheet_fixture 11))))
                  sheet_arguments (sheet_fixture 11)
                  [VStr (lit "name"); VStr (lit "qty")]
                  (lit "abc") (lit "A:Z") (lit "11") (lit "name, qty")
                  eq_refl eq_refl (mock_returns_json _) eq_refl eq_refl
                  eq_refl)).
Defined.

Lemma earlier_read_sheet_needs_headers_witness :
  Earlier.CallTool config (mock (fixture (VObj empty_sheet_fixture)))
    (lit "read_sheet") (Some sheet_arguments)
  = error_result
      (lit "Error: Cannot read properties of undefined (reading 'join')").
Proof.
  exact (earlier_read_sheet_needs_headers (NUM := numbers) (PLAT := platform)
           config (mock (fixture (VObj empty_sheet_fixture)))
           sheet_arguments empty_sheet_fixture
           (lit "abc") (lit "A:Z") (lit "0")
           eq_refl eq_refl (mock_returns_json _) eq_refl eq_refl).
Defined.

Lemma earlier_requests_witness :
  sends (Earlier.CallTool config) (lit "read_sheet") (Some sheet_arguments)
    (baseUrl config ++ lit "/api/sheets/" ++ lit "abc" ++ lit "?"
     ++ URLSearchParams_toString [(lit "range", lit "A:Z")])
    {| method := None; body := None; headers := default_headers config |}.
Proof.
  exact (proj2 (earlier_requests (NUM := numbers) (PLAT := platform) config
                  sheet_arguments (lit "abc") (lit "A:Z"))
           eq_refl eq_refl).
Defined.

Lemma unparsable_body_witness :
  exists t,
    CallTool config (mock unparsable_response) (lit "get_sheet_metadata")
      (Some sheet_arguments) = error_result t
    /\ (t = lit "Error: "
             ++ lit "Unexpected token '<', ... is not valid JSON"
        \/ forall fetch',
             CallTool config fetch' (lit "get_sheet_metadata")
               (Some sheet_arguments) = error_result t).
Proof.
  exact (unparsable_body_is_an_error (NUM := numbers) (PLAT := platform)
           config (mock unparsable_response) unparsable_response
           (mkError (lit "Unexpected token '<', ... is not valid JSON"))
           (lit "get_sheet_metadata") (Some sheet_arguments)
           (fun url init => eq_refl) eq_refl eq_refl).
Defined.

End MoreExamples.
